(** * SketchbookWidgetContribution

    A shallow embedding of
    [arduino-ide-extension/src/browser/widgets/sketchbook/sketchbook-widget-contribution.ts].

    The class is glue between the host's services.  Values the services
    answer with (the current sketch, the node the tree model reveals, the
    resource the file service resolves, the preference, the active widget)
    are read from a record [Services]; everything the handlers change, and
    every call they make on a service, is recorded in a [World] that the
    handlers thread through a state monad with JavaScript exceptions.
    Each handler is first given as a whole run, in which an [await] is a
    sequencing point; the handlers are then cut at their [await]s into the
    turns the host runs one at a time, so that invocations can overlap.
    Numbers are IEEE 754 doubles.

    Embedded: [selectWidgetFileNode], [onCurrentWidgetChangedHandler], the
    three handlers of [registerCommands], and [registerMenus] over what
    [super.registerMenus] does.  The constructor, [init], [onStart] and
    [initializeLayout] only wire the view into the host and are left out. *)

From Stdlib Require Import PrimFloat.
From Stdlib Require Import String List Bool Lia.
From ExtLib Require Import Structures.Monad.
Import ListNotations.
Import MonadNotation.
Local Open Scope string_scope.
Local Open Scope list_scope.
Local Open Scope monad_scope.

(** ** Data the handlers receive *)

(** A [URI] object.  The file only calls [toString()] on it or hands it to a
    service, so it is represented by the string [toString()] returns. *)
Module URI.
Record t : Type := parse { toString : string }.
End URI.

(** [Command] of the host: [{ id: string; label?: string }]. *)
Module Command.
Record t : Type := mk { id : string; label : option string }.
End Command.

(** Modelled from the spec: the tree node interfaces ([TreeNode],
    [SelectableTreeNode], [SketchbookTree.SketchDirNode] of sketchbook-tree.ts)
    are not under src/.  The spec's TreeNode "has a URI, an identity, and a
    boolean 'is sketch directory'"; [selectable] is what
    [SelectableTreeNode.is] answers on the node. *)
Module TreeNode.
Record t : Type := mk {
  id : string;
  uri : URI.t;
  isSketchDir : bool;
  selectable : bool
}.
End TreeNode.

(** A JavaScript number: an IEEE 754 double, added with the float [+]. *)
Definition number : Type := PrimFloat.float.

Definition number_add (a b : number) : number := PrimFloat.add a b.

(** The element a context-menu click lands on: the two numbers of
    [getBoundingClientRect()] the handler reads, and [offsetHeight]. *)
Module HTMLElement.
Record t : Type := mk { left : number; top : number; offsetHeight : number }.
End HTMLElement.

(** [arg.event]; [target] is [None] when the event has no (truthy) target. *)
Module MouseEvent.
Record t : Type := mk { target : option HTMLElement.t }.
End MouseEvent.

(** An own property of a JavaScript object: it can be missing, or be there
    and hold [undefined]. *)
Inductive Property (A : Type) : Type :=
| Absent
| Present (v : option A).
Arguments Absent {A}.
Arguments Present {A} v.

(** ['k' in o] *)
Definition has {A} (p : Property A) : bool :=
  match p with Absent => false | Present _ => true end.

(** [o.k] *)
Definition get {A} (p : Property A) : option A :=
  match p with Absent => None | Present v => v end.

(** The object the tree widget passes to the commands: [{ node, event }]. *)
Module ArgObject.
Record t : Type := mk {
  node : Property TreeNode.t;
  event : option MouseEvent.t
}.
End ArgObject.

(** The handlers declare [arg] without a type, so a caller may pass any
    JavaScript value.  Three shapes behave differently here:
    - [Falsy]: [undefined], [null], [false], [0], [''];
    - [Primitive]: a truthy value that is not an object ([true], a non-zero
      number, a non-empty string);
    - [Object o]: an object. *)
Inductive Arg : Type :=
| Falsy
| Primitive
| Object (o : ArgObject.t).

(** ** Completions *)

(** The errors met here: a TypeError of the language, and the host's
    rejection of a command that has no enabled handler. *)
Inductive JsError : Type := TypeError | NoActiveHandler.

(** How a JavaScript call ends: with a value, or with a thrown error (for an
    [async] function: a fulfilled or a rejected promise). *)
Inductive Completion (A : Type) : Type :=
| Returned (a : A)
| Threw (e : JsError).
Arguments Returned {A} a.
Arguments Threw {A} e.

(** [!!arg] *)
Definition truthy (arg : Arg) : bool :=
  match arg with Falsy => false | _ => true end.

(** ['node' in arg]: the [in] operator throws a TypeError when its right
    operand is not an object. *)
Definition node_in (arg : Arg) : Completion bool :=
  match arg with
  | Object o => Returned (has (ArgObject.node o))
  | _ => Threw TypeError
  end.

(** [arg.node], read in a position that is only reached for an object. *)
Definition arg_node (arg : Arg) : option TreeNode.t :=
  match arg with
  | Object o => get (ArgObject.node o)
  | _ => None
  end.

(** [arg.node.uri] and [arg.node.id]: reading a property of [undefined]
    throws.  [undefined.node] throws, and [node] of a primitive is
    [undefined], so only an object with a node gets through. *)
Definition arg_node_uri (arg : Arg) : Completion URI.t :=
  match arg_node arg with
  | Some n => Returned (TreeNode.uri n)
  | None => Threw TypeError
  end.

Definition arg_node_id (arg : Arg) : Completion string :=
  match arg_node arg with
  | Some n => Returned (TreeNode.id n)
  | None => Threw TypeError
  end.

(** [arg.event.target] *)
Definition arg_event_target (arg : Arg) : Completion (option HTMLElement.t) :=
  match arg with
  | Object o =>
      match ArgObject.event o with
      | Some ev => Returned (MouseEvent.target ev)
      | None => Threw TypeError
      end
  | _ => Threw TypeError
  end.

(** Modelled from the spec: [SketchbookTree.SketchDirNode.is]
    (sketchbook-tree.ts) is not under src/; it answers the node's
    "is sketch directory" boolean, and [false] on [undefined]. *)
Definition SketchDirNode_is (node : option TreeNode.t) : bool :=
  match node with
  | Some n => TreeNode.isSketchDir n
  | None => false
  end.

(** Modelled from the spec: [SelectableTreeNode.is] of the host. *)
Definition SelectableTreeNode_is (node : option TreeNode.t) : bool :=
  match node with
  | Some n => TreeNode.selectable n
  | None => false
  end.

(** [Sketch] of the sketches service; only [uri] (a string) is read. *)
Module Sketch.
Record t : Type := mk { uri : string }.
End Sketch.

(** A shell widget.  [getResourceUri] is [Absent] for a widget that is not
    [Navigatable]; otherwise it holds what [getResourceUri()] returns. *)
Module Widget.
Record t : Type := mk { getResourceUri : Property URI.t }.
End Widget.

(** [Navigatable.is(widget)] *)
Definition Navigatable_is (widget : option Widget.t) : bool :=
  match widget with
  | Some wd => has (Widget.getResourceUri wd)
  | None => false
  end.

(** ** Menus *)

Definition MenuPath : Type := list string.

Definition SKETCHBOOK__CONTEXT : MenuPath := ["arduino-sketchbook--context"].

(* `Open Folder`, `Open in New Window` *)
Definition SKETCHBOOK__CONTEXT__MAIN_GROUP : MenuPath :=
  SKETCHBOOK__CONTEXT ++ ["0_main"].

(** [MenuAction] of the host: [{ commandId, label?, order? }]. *)
Module MenuAction.
Record t : Type := mk {
  commandId : string;
  label : option string;
  order : option string
}.
End MenuAction.

(** Modelled from the spec: the menu nodes ([PlaceholderMenuNode] of
    arduino-menus.ts and the host's action node) are not under src/.  A
    placeholder is "a disabled placeholder entry (non-actionable,
    informational)": it carries a menu path and a label and no command; an
    action node is "a live, clickable" entry bound to a command id. *)
Inductive MenuNode : Type :=
| PlaceholderMenuNode (menuPath : MenuPath) (label : option string)
| ActionMenuNode (action : MenuAction.t).

(** The command an entry runs when it is clicked, if any. *)
Definition actionable (n : MenuNode) : option string :=
  match n with
  | PlaceholderMenuNode _ _ => None
  | ActionMenuNode a => Some (MenuAction.commandId a)
  end.

(** [RenderContextMenuOptions] with its [anchor: { x, y }]. *)
Module Anchor.
Record t : Type := mk { x : number; y : number }.
End Anchor.

Module RenderContextMenuOptions.
Record t : Type := mk {
  menuPath : MenuPath;
  anchor : Anchor.t;
  args : Arg
}.
End RenderContextMenuOptions.

(** The two closures the file wraps with [Disposable.create]. *)
Inductive Disposable : Type :=
| Disposable_unregisterMenuNode (id : string)
| Disposable_unregisterMenuAction (command : Command.t).

(** ** The world *)

(** A call made on an injected service, in the order it is made. *)
Inductive Call : Type :=
| Call_registerMenuNode (menuPath : MenuPath) (node : MenuNode)
| Call_registerMenuAction (menuPath : MenuPath) (action : MenuAction.t)
| Call_unregisterMenuNode (id : string)
| Call_unregisterMenuAction (command : Command.t)
| Call_currentSketch
| Call_render (options : RenderContextMenuOptions.t)
| Call_toUnderlyingResource (uri : URI.t)
| Call_workspace_open (uri : URI.t)
| Call_openPath (path : string)
| Call_revealFile (uri : URI.t)
| Call_selectNode (node : TreeNode.t).

(** What the handlers can change.
    - [menuRegistry]: modelled from the spec, the host's menu registry as the
      registered "(menu-path, entry) pairs", in registration order;
    - [toDisposeBeforeNewContextMenu]: the disposal collection of the class,
      oldest first;
    - [selectedNodes]: the selection of the tree model;
    - [calls]: the calls made so far, oldest first. *)
Module World.
Record t : Type := mk {
  menuRegistry : list (MenuPath * MenuNode);
  toDisposeBeforeNewContextMenu : list Disposable;
  selectedNodes : list TreeNode.t;
  calls : list Call
}.
End World.
Import World.

(** What the injected services answer when asked.
    - [currentSketch]: [sketchServiceClient.currentSketch()];
    - [toUnderlyingResource]: [fileService.toUnderlyingResource(uri)];
    - [openPath]: electron's [shell.openPath(path)], an error message;
    - [revealFile]: [model.revealFile(uri)] of the tree model;
    - [autoReveal]: [fileNavigatorPreferences['explorer.autoReveal']];
    - [currentWidget]: [shell.currentWidget]. *)
Module Services.
Record t : Type := mk {
  currentSketch : option Sketch.t;
  toUnderlyingResource : URI.t -> URI.t;
  openPath : string -> string;
  revealFile : URI.t -> option TreeNode.t;
  autoReveal : bool;
  currentWidget : option Widget.t
}.
End Services.

(** ** The monad of the handlers: state, and exceptions that keep the state
    reached when they are thrown. *)

Definition Js (A : Type) : Type := World.t -> Completion A * World.t.

#[export] Instance Monad_Js : Monad Js := {
  ret := fun _ a w => (Returned a, w);
  bind := fun _ _ m k w =>
    match m w with
    | (Returned a, w') => k a w'
    | (Threw e, w') => (Threw e, w')
    end
}.

(** A pure JavaScript expression that may throw. *)
Definition eval {A} (c : Completion A) : Js A := fun w => (c, w).

Definition call (c : Call) : Js unit :=
  fun w => (Returned tt,
            World.mk (menuRegistry w) (toDisposeBeforeNewContextMenu w)
                     (selectedNodes w) (calls w ++ [c])).

Definition set_menuRegistry (r : list (MenuPath * MenuNode)) : Js unit :=
  fun w => (Returned tt,
            World.mk r (toDisposeBeforeNewContextMenu w)
                     (selectedNodes w) (calls w)).

Definition set_toDispose (ds : list Disposable) : Js unit :=
  fun w => (Returned tt,
            World.mk (menuRegistry w) ds (selectedNodes w) (calls w)).

Definition set_selectedNodes (ns : list TreeNode.t) : Js unit :=
  fun w => (Returned tt,
            World.mk (menuRegistry w) (toDisposeBeforeNewContextMenu w)
                     ns (calls w)).

Definition read {A} (f : World.t -> A) : Js A := fun w => (Returned (f w), w).

#[export] Instance Monad_Completion : Monad Completion := {
  ret := fun _ a => Returned a;
  bind := fun _ _ m k =>
    match m with
    | Returned a => k a
    | Threw e => Threw e
    end
}.

(** ** Sample data for the closed examples *)

Module Sample.

Definition OPEN_NEW_WINDOW : Command.t :=
  Command.mk "open-new-window" (Some "Open in New Window").

Definition REVEAL_IN_FINDER : Command.t :=
  Command.mk "reveal-in-finder" (Some "Open Folder").

Definition OPEN_SKETCHBOOK_CONTEXT_MENU : Command.t :=
  Command.mk "open-context-menu" (Some "Contextual menu").

Definition placeholder_id (menuPath : MenuPath) (label : option string)
  : string :=
  String.concat "-" (menuPath ++ ["placeholder"]).

(** Two sketch directories and a plain file of the first one. *)
Definition blink : TreeNode.t :=
  TreeNode.mk "/sketchbook/Blink" (URI.parse "file:///sketchbook/Blink")
              true true.

Definition fade : TreeNode.t :=
  TreeNode.mk "/sketchbook/Fade" (URI.parse "file:///sketchbook/Fade")
              true true.

Definition readme : TreeNode.t :=
  TreeNode.mk "/sketchbook/Blink/README.md"
              (URI.parse "file:///sketchbook/Blink/README.md")
              false false.

Definition button : HTMLElement.t :=
  HTMLElement.mk 12.5%float 40.25%float 22%float.

(** [{ node, event }] of a click on the button of a node's row, and the
    same with an event that has no target. *)
Definition click (n : TreeNode.t) : Arg :=
  Object (ArgObject.mk (Present (Some n))
                       (Some (MouseEvent.mk (Some button)))).

Definition click_without_target (n : TreeNode.t) : Arg :=
  Object (ArgObject.mk (Present (Some n)) (Some (MouseEvent.mk None))).

(** An editor on a file, and a widget that is not navigatable. *)
Definition editor (file : string) : Widget.t :=
  Widget.mk (Present (Some (URI.parse file))).

Definition output_view : Widget.t := Widget.mk Absent.

(** Services of an IDE whose current sketch is Blink. *)
Definition services (autoReveal : bool) (currentWidget : option Widget.t)
  : Services.t :=
  Services.mk
    (Some (Sketch.mk "file:///sketchbook/Blink"))
    (fun uri => URI.parse (String.append "resolved:" (URI.toString uri)))
    (fun _ => "Failed to open path")
    (fun uri =>
       if String.eqb (URI.toString uri) "file:///sketchbook/Blink"
       then Some blink
       else if String.eqb (URI.toString uri)
                          "file:///sketchbook/Blink/README.md"
       then Some readme
       else None)
    autoReveal
    currentWidget.

(** The world before the first context menu: the registry holds the
    "reveal" action [registerMenus] puts in the main group. *)
Definition start : World.t :=
  World.mk
    [(SKETCHBOOK__CONTEXT__MAIN_GROUP,
      ActionMenuNode
        (MenuAction.mk (Command.id REVEAL_IN_FINDER)
                       (Command.label REVEAL_IN_FINDER) (Some "0")))]
    [] [] [].

(** A click whose argument has no [node], and a node passed without an
    [event]. *)
Definition click_without_node : Arg :=
  Object (ArgObject.mk Absent (Some (MouseEvent.mk (Some button)))).

Definition node_only (n : TreeNode.t) : Arg :=
  Object (ArgObject.mk (Present (Some n)) None).

(** Services of an IDE that has no current sketch. *)
Definition services_without_sketch : Services.t :=
  Services.mk None (fun uri => uri) (fun _ => "") (fun _ => None) true None.

(** A [super.registerMenus] that puts the toggle command of the view in
    the View menu. *)
Definition toggle_entry : MenuPath * MenuNode :=
  (["menubar"; "4_view"; "1_views"],
   ActionMenuNode
     (MenuAction.mk "arduino-sketchbook-widget:toggle" (Some "Sketchbook")
                    None)).

Definition super_registerMenus : Js unit :=
  fun w =>
    (Returned tt,
     World.mk (menuRegistry w ++ [toggle_entry])
              (toDisposeBeforeNewContextMenu w) (selectedNodes w) (calls w)).

Definition empty : World.t := World.mk [] [] [] [].

End Sample.

(** ** The contribution *)

Section SketchbookWidgetContribution.

(** [SketchbookCommands] (sketchbook-commands.ts) is not under src/: the
    three commands the file names are parameters. *)
Variables OPEN_NEW_WINDOW REVEAL_IN_FINDER OPEN_SKETCHBOOK_CONTEXT_MENU :
  Command.t.

(** The [id] getter of [PlaceholderMenuNode] (arduino-menus.ts, not under
    src/), a function of what the node is built from. *)
Variable PlaceholderMenuNode_id : MenuPath -> option string -> string.

(** Modelled from the spec: the [id] of a menu node, by which the host's
    registry revokes it, is not under src/: a placeholder's own getter, an
    action's command id. *)
Definition MenuNode_id (n : MenuNode) : string :=
  match n with
  | PlaceholderMenuNode menuPath label => PlaceholderMenuNode_id menuPath label
  | ActionMenuNode a => MenuAction.commandId a
  end.

(** *** The menu registry *)

(** Modelled from the spec: the host's menu registry is not under src/; the
    spec gives it "a register/unregister contract" over "(menu-path, entry)
    pairs".  Registering adds a pair. *)
Definition menuRegistry_add (menuPath : MenuPath) (node : MenuNode) : Js unit :=
  r <- read menuRegistry ;;
  set_menuRegistry (r ++ [(menuPath, node)]).

(** Modelled from the spec: "registered entries must be revocable";
    unregistering by id revokes the entries that have this id. *)
Definition menuRegistry_remove (id : string) : Js unit :=
  r <- read menuRegistry ;;
  set_menuRegistry
    (filter (fun e => negb (String.eqb (MenuNode_id (snd e)) id)) r).

Definition registerMenuNode (menuPath : MenuPath) (node : MenuNode) : Js unit :=
  call (Call_registerMenuNode menuPath node) ;;
  menuRegistry_add menuPath node.

Definition registerMenuAction (menuPath : MenuPath) (action : MenuAction.t)
  : Js unit :=
  call (Call_registerMenuAction menuPath action) ;;
  menuRegistry_add menuPath (ActionMenuNode action).

Definition unregisterMenuNode (id : string) : Js unit :=
  call (Call_unregisterMenuNode id) ;;
  menuRegistry_remove id.

Definition unregisterMenuAction (command : Command.t) : Js unit :=
  call (Call_unregisterMenuAction command) ;;
  menuRegistry_remove (Command.id command).

(** *** The disposal collection *)

(** Running one of the two closures. *)
Definition Disposable_dispose (d : Disposable) : Js unit :=
  match d with
  | Disposable_unregisterMenuNode id => unregisterMenuNode id
  | Disposable_unregisterMenuAction command => unregisterMenuAction command
  end.

Fixpoint dispose_each (ds : list Disposable) : Js unit :=
  match ds with
  | [] => ret tt
  | d :: ds' => Disposable_dispose d ;; dispose_each ds'
  end.

(** Modelled from the spec: the host's [DisposableCollection] is not under
    src/.  [dispose()] disposes "all entries registered by the previous
    invocation", newest first, and leaves the collection empty, so that a
    second [dispose()] does nothing ("idempotent cleanup"). *)
Definition DisposableCollection_dispose : Js unit :=
  ds <- read toDisposeBeforeNewContextMenu ;;
  set_toDispose [] ;;
  dispose_each (rev ds).

(** Modelled from the spec: [push] of the same collection. *)
Definition DisposableCollection_push (d : Disposable) : Js unit :=
  ds <- read toDisposeBeforeNewContextMenu ;;
  set_toDispose (ds ++ [d]).

(** *** Tab-change selection sync *)

(** Modelled from the spec: [model.selectNode(node)] of the tree model
    "mutates tree selection state (single selection)". *)
Definition model_selectNode (node : TreeNode.t) : Js unit :=
  call (Call_selectNode node) ;;
  set_selectedNodes [node].

(** [model.revealFile(uri)]: the request is recorded and the tree model's
    answer is the services'.  What the tree model does to itself on the way
    (expanding folders) is its own and is not part of the world. *)
Definition model_revealFile (sv : Services.t) (uri : URI.t)
  : Js (option TreeNode.t) :=
  call (Call_revealFile uri) ;;
  ret (Services.revealFile sv uri).

(** [widget.getResourceUri()], called once [Navigatable.is(widget)] holds. *)
Definition widget_getResourceUri (widget : option Widget.t) : option URI.t :=
  match widget with
  | Some wd => get (Widget.getResourceUri wd)
  | None => None
  end.

Definition selectWidgetFileNode (sv : Services.t) (widget : option Widget.t)
  : Js unit :=
  if Navigatable_is widget then
    match widget_getResourceUri widget with
    | Some resourceUri =>
        node <- model_revealFile sv resourceUri ;;
        if SelectableTreeNode_is node then
          match node with
          | Some n => model_selectNode n
          | None => ret tt
          end
        else ret tt
    | None => ret tt
    end
  else ret tt.

Definition onCurrentWidgetChangedHandler (sv : Services.t) : Js unit :=
  if Services.autoReveal sv then
    selectWidgetFileNode sv (Services.currentWidget sv)
  else ret tt.

(** *** Commands *)

(** A [CommandHandler] of the host: [execute], [isEnabled], [isVisible]. *)
Record CommandHandler : Type := {
  execute : Arg -> Js unit;
  isEnabled : Arg -> Completion bool;
  isVisible : Arg -> Completion bool
}.

Definition fileService_toUnderlyingResource (sv : Services.t) (uri : URI.t)
  : Js URI.t :=
  call (Call_toUnderlyingResource uri) ;;
  ret (Services.toUnderlyingResource sv uri).

Definition workspaceService_open (uri : URI.t) : Js unit :=
  call (Call_workspace_open uri).

(** electron's [shell.openPath(path)]: a promise of an error message. *)
Definition shell_openPath (sv : Services.t) (path : string) : Js string :=
  call (Call_openPath path) ;;
  ret (Services.openPath sv path).

Definition sketchServiceClient_currentSketch (sv : Services.t)
  : Js (option Sketch.t) :=
  call Call_currentSketch ;;
  ret (Services.currentSketch sv).

Definition contextMenuRenderer_render (options : RenderContextMenuOptions.t)
  : Js unit :=
  call (Call_render options).

(** [SketchbookCommands.OPEN_NEW_WINDOW] *)

Definition OPEN_NEW_WINDOW_execute (sv : Services.t) (arg : Arg) : Js unit :=
  uri <- eval (arg_node_uri arg) ;;
  underlying <- fileService_toUnderlyingResource sv uri ;;
  workspaceService_open underlying.

Definition OPEN_NEW_WINDOW_isEnabled (arg : Arg) : Completion bool :=
  if truthy arg then
    inArg <- node_in arg ;;
    if inArg : bool then ret (SketchDirNode_is (arg_node arg)) else ret false
  else ret false.

Definition OPEN_NEW_WINDOW_isVisible (arg : Arg) : Completion bool :=
  if truthy arg then
    inArg <- node_in arg ;;
    if inArg : bool then ret (SketchDirNode_is (arg_node arg)) else ret false
  else ret false.

(** [SketchbookCommands.REVEAL_IN_FINDER] *)

Definition REVEAL_IN_FINDER_execute (sv : Services.t) (arg : Arg) : Js unit :=
  id <- eval (arg_node_id arg) ;;
  _ <- shell_openPath sv id ;;
  ret tt.

Definition REVEAL_IN_FINDER_isEnabled (arg : Arg) : Completion bool :=
  if truthy arg then
    inArg <- node_in arg ;;
    if inArg : bool then ret (SketchDirNode_is (arg_node arg)) else ret false
  else ret false.

Definition REVEAL_IN_FINDER_isVisible (arg : Arg) : Completion bool :=
  if truthy arg then
    inArg <- node_in arg ;;
    if inArg : bool then ret (SketchDirNode_is (arg_node arg)) else ret false
  else ret false.

(** [SketchbookCommands.OPEN_SKETCHBOOK_CONTEXT_MENU] *)

Definition OPEN_SKETCHBOOK_CONTEXT_MENU_isEnabled (arg : Arg)
  : Completion bool :=
  if truthy arg then
    inArg <- node_in arg ;;
    if inArg : bool then ret (SketchDirNode_is (arg_node arg)) else ret false
  else ret false.

Definition OPEN_SKETCHBOOK_CONTEXT_MENU_isVisible (arg : Arg)
  : Completion bool :=
  if truthy arg then
    inArg <- node_in arg ;;
    if inArg : bool then ret (SketchDirNode_is (arg_node arg)) else ret false
  else ret false.

(** [currentSketch && currentSketch.uri === arg.node.uri.toString()] *)
Definition isCurrentSketch (currentSketch : option Sketch.t) (arg : Arg)
  : Completion bool :=
  match currentSketch with
  | Some sketch =>
      uri <- arg_node_uri arg ;;
      ret (String.eqb (Sketch.uri sketch) (URI.toString uri))
  | None => ret false
  end.

Definition OPEN_SKETCHBOOK_CONTEXT_MENU_execute (sv : Services.t) (arg : Arg)
  : Js unit :=
  (* cleanup previous context menu entries *)
  DisposableCollection_dispose ;;
  container <- eval (arg_event_target arg) ;;
  match container with
  | None => ret tt
  | Some container =>
      (* disable the "open sketch" command for the current sketch.
         otherwise make the command clickable *)
      currentSketch <- sketchServiceClient_currentSketch sv ;;
      current <- eval (isCurrentSketch currentSketch arg) ;;
      (if current : bool then
         let placeholder :=
           PlaceholderMenuNode SKETCHBOOK__CONTEXT__MAIN_GROUP
                               (Command.label OPEN_NEW_WINDOW) in
         registerMenuNode SKETCHBOOK__CONTEXT__MAIN_GROUP placeholder ;;
         DisposableCollection_push
           (Disposable_unregisterMenuNode (MenuNode_id placeholder))
       else
         registerMenuAction SKETCHBOOK__CONTEXT__MAIN_GROUP
           (MenuAction.mk (Command.id OPEN_NEW_WINDOW)
                          (Command.label OPEN_NEW_WINDOW) None) ;;
         DisposableCollection_push
           (Disposable_unregisterMenuAction OPEN_NEW_WINDOW)) ;;
      let options :=
        RenderContextMenuOptions.mk
          SKETCHBOOK__CONTEXT
          (Anchor.mk (HTMLElement.left container)
                     (number_add (HTMLElement.top container)
                                 (HTMLElement.offsetHeight container)))
          arg in
      contextMenuRenderer_render options
  end.

(** [registerCommands]: the three handlers, keyed by their command. *)
Definition OPEN_NEW_WINDOW_handler (sv : Services.t) : CommandHandler :=
  {| execute := OPEN_NEW_WINDOW_execute sv;
     isEnabled := OPEN_NEW_WINDOW_isEnabled;
     isVisible := OPEN_NEW_WINDOW_isVisible |}.

Definition REVEAL_IN_FINDER_handler (sv : Services.t) : CommandHandler :=
  {| execute := REVEAL_IN_FINDER_execute sv;
     isEnabled := REVEAL_IN_FINDER_isEnabled;
     isVisible := REVEAL_IN_FINDER_isVisible |}.

Definition OPEN_SKETCHBOOK_CONTEXT_MENU_handler (sv : Services.t)
  : CommandHandler :=
  {| execute := OPEN_SKETCHBOOK_CONTEXT_MENU_execute sv;
     isEnabled := OPEN_SKETCHBOOK_CONTEXT_MENU_isEnabled;
     isVisible := OPEN_SKETCHBOOK_CONTEXT_MENU_isVisible |}.

Definition registerCommands (sv : Services.t)
  : list (Command.t * CommandHandler) :=
  [ (OPEN_NEW_WINDOW, OPEN_NEW_WINDOW_handler sv);
    (REVEAL_IN_FINDER, REVEAL_IN_FINDER_handler sv);
    (OPEN_SKETCHBOOK_CONTEXT_MENU, OPEN_SKETCHBOOK_CONTEXT_MENU_handler sv) ].

(** Modelled from the spec: the host's command registry is not under src/;
    by its "register/enable/visible contract" a command is enabled for an
    argument when the [isEnabled] of its handler answers true.  The registry
    calls the predicate under a [try]: a predicate that throws is logged and
    the command counts as not enabled. *)
Definition commandEnabled (h : CommandHandler) (arg : Arg) : bool :=
  match isEnabled h arg with
  | Returned true => true
  | _ => false
  end.

(** Modelled from the spec: the same contract for [isVisible]. *)
Definition commandVisible (h : CommandHandler) (arg : Arg) : bool :=
  match isVisible h arg with
  | Returned true => true
  | _ => false
  end.

(** Modelled from the spec: [executeCommand] of the same registry runs the
    handler only when the command is enabled for the argument, and rejects
    the call otherwise. *)
Definition executeCommand (h : CommandHandler) (arg : Arg) : Js unit :=
  if commandEnabled h arg then execute h arg
  else eval (Threw NoActiveHandler).

(** *** Vocabulary of the properties *)

(** "The argument carries a 'node' property". *)
Definition carries_node (arg : Arg) : bool :=
  match arg with
  | Object o => has (ArgObject.node o)
  | _ => false
  end.

(** "Truthy, carries a 'node' property, and that node is a sketch-directory
    node". *)
Definition sketch_dir_argument (arg : Arg) : bool :=
  truthy arg && carries_node arg && SketchDirNode_is (arg_node arg).

(** The two entry variants of the context-menu handler. *)
Definition placeholder_entry : MenuNode :=
  PlaceholderMenuNode SKETCHBOOK__CONTEXT__MAIN_GROUP
                      (Command.label OPEN_NEW_WINDOW).

Definition action_entry : MenuNode :=
  ActionMenuNode (MenuAction.mk (Command.id OPEN_NEW_WINDOW)
                                (Command.label OPEN_NEW_WINDOW) None).

Definition entry_variant (current : bool) : MenuNode :=
  if current then placeholder_entry else action_entry.

Definition register_call (current : bool) : Call :=
  if current
  then Call_registerMenuNode SKETCHBOOK__CONTEXT__MAIN_GROUP placeholder_entry
  else Call_registerMenuAction SKETCHBOOK__CONTEXT__MAIN_GROUP
         (MenuAction.mk (Command.id OPEN_NEW_WINDOW)
                        (Command.label OPEN_NEW_WINDOW) None).

Definition entry_disposable (current : bool) : Disposable :=
  if current
  then Disposable_unregisterMenuNode (MenuNode_id placeholder_entry)
  else Disposable_unregisterMenuAction OPEN_NEW_WINDOW.

(** An "open in new window" entry of the registry: the placeholder of the
    main group, or an action bound to the command. *)
Definition is_open_in_new_window (n : MenuNode) : bool :=
  match n with
  | PlaceholderMenuNode menuPath label =>
      if list_eq_dec string_dec menuPath SKETCHBOOK__CONTEXT__MAIN_GROUP
      then match label, Command.label OPEN_NEW_WINDOW with
           | Some l, Some l' => String.eqb l l'
           | None, None => true
           | _, _ => false
           end
      else false
  | ActionMenuNode a =>
      String.eqb (MenuAction.commandId a) (Command.id OPEN_NEW_WINDOW)
  end.

(** The live "open in new window" registrations. *)
Definition live_registrations (r : list (MenuPath * MenuNode))
  : list (MenuPath * MenuNode) :=
  filter (fun e => is_open_in_new_window (snd e)) r.

(** What a disposable revokes, and the call it makes. *)
Definition Disposable_id (d : Disposable) : string :=
  match d with
  | Disposable_unregisterMenuNode id => id
  | Disposable_unregisterMenuAction command => Command.id command
  end.

Definition Disposable_call (d : Disposable) : Call :=
  match d with
  | Disposable_unregisterMenuNode id => Call_unregisterMenuNode id
  | Disposable_unregisterMenuAction command =>
      Call_unregisterMenuAction command
  end.

Definition revoke (r : list (MenuPath * MenuNode)) (d : Disposable)
  : list (MenuPath * MenuNode) :=
  filter (fun e => negb (String.eqb (MenuNode_id (snd e)) (Disposable_id d))) r.

(** The world once the disposal collection has been disposed. *)
Definition disposed (w : World.t) : World.t :=
  World.mk
    (fold_left revoke (rev (toDisposeBeforeNewContextMenu w)) (menuRegistry w))
    []
    (selectedNodes w)
    (calls w ++ map Disposable_call (rev (toDisposeBeforeNewContextMenu w))).

(** The states the contribution goes through when its handlers do not
    overlap: it starts with an empty disposal collection and no "open in new
    window" entry in the registry, and no handler is called before the
    previous one has run to its end. *)
Inductive sequential : World.t -> Prop :=
| sequential_start w :
    toDisposeBeforeNewContextMenu w = [] ->
    live_registrations (menuRegistry w) = [] ->
    sequential w
| sequential_context_menu w sv arg :
    sequential w ->
    sequential (snd (OPEN_SKETCHBOOK_CONTEXT_MENU_execute sv arg w))
| sequential_open_new_window w sv arg :
    sequential w ->
    sequential (snd (OPEN_NEW_WINDOW_execute sv arg w))
| sequential_reveal_in_finder w sv arg :
    sequential w ->
    sequential (snd (REVEAL_IN_FINDER_execute sv arg w))
| sequential_tab_change w sv :
    sequential w ->
    sequential (snd (onCurrentWidgetChangedHandler sv w)).

(** Every "open in new window" entry of the registry is revoked by
    disposing the collection, and there is at most one. *)
Definition tracked (w : World.t) : Prop :=
  length (live_registrations (menuRegistry w)) <= 1
  /\ live_registrations (menuRegistry (disposed w)) = [].

(** The context-menu handler, case by case. *)
Definition context_menu_outcome (sv : Services.t) (arg : Arg) (w : World.t)
  : Completion unit * World.t :=
  let d := disposed w in
  match arg_event_target arg with
  | Threw e => (Threw e, d)
  | Returned None => (Returned tt, d)
  | Returned (Some container) =>
      match isCurrentSketch (Services.currentSketch sv) arg with
      | Threw e =>
          (Threw e,
           World.mk (menuRegistry d) [] (selectedNodes d)
                    (calls d ++ [Call_currentSketch]))
      | Returned current =>
          (Returned tt,
           World.mk
             (menuRegistry d
              ++ [(SKETCHBOOK__CONTEXT__MAIN_GROUP, entry_variant current)])
             [entry_disposable current]
             (selectedNodes d)
             (calls d
              ++ [Call_currentSketch;
                  register_call current;
                  Call_render
                    (RenderContextMenuOptions.mk
                       SKETCHBOOK__CONTEXT
                       (Anchor.mk
                          (HTMLElement.left container)
                          (number_add (HTMLElement.top container)
                                      (HTMLElement.offsetHeight container)))
                       arg)]))
      end
  end.

(** *** Menus of the view *)

(** [toggleCommandId] of the view options the constructor passes on. *)
Definition toggleCommandId : string := "arduino-sketchbook-widget:toggle".

(** Modelled from the spec: [registry.unregisterMenuAction({ commandId })] of
    the host's menu registry, called with a menu action: the entries whose id
    is the action's command id are revoked.  [calls] has no record of this
    form of the call. *)
Definition unregisterMenuAction_of (action : MenuAction.t) : Js unit :=
  menuRegistry_remove (MenuAction.commandId action).

(** [registerMenus].  What [super.registerMenus(registry)] does is the
    host's: it is the argument [super_registerMenus]. *)
Definition registerMenus (super_registerMenus : Js unit) : Js unit :=
  super_registerMenus ;;
  (* unregister main menu action *)
  unregisterMenuAction_of (MenuAction.mk toggleCommandId None None) ;;
  registerMenuAction SKETCHBOOK__CONTEXT__MAIN_GROUP
    (MenuAction.mk (Command.id REVEAL_IN_FINDER)
                   (Command.label REVEAL_IN_FINDER) (Some "0")).

(** The entry [registerMenus] adds. *)
Definition reveal_entry : MenuPath * MenuNode :=
  (SKETCHBOOK__CONTEXT__MAIN_GROUP,
   ActionMenuNode
     (MenuAction.mk (Command.id REVEAL_IN_FINDER)
                    (Command.label REVEAL_IN_FINDER) (Some "0"))).

(** The disposal collection holds nothing but disposables the context-menu
    handler made. *)
Definition own_collection (w : World.t) : Prop :=
  forall d,
    In d (toDisposeBeforeNewContextMenu w) ->
    exists current, d = entry_disposable current.

(** The node a tab change selects on the given answers of the services, if
    it selects one. *)
Definition tab_change_target (sv : Services.t) : option TreeNode.t :=
  if Services.autoReveal sv then
    if Navigatable_is (Services.currentWidget sv) then
      match widget_getResourceUri (Services.currentWidget sv) with
      | Some uri =>
          match Services.revealFile sv uri with
          | Some n => if TreeNode.selectable n then Some n else None
          | None => None
          end
      | None => None
      end
    else None
  else None.

(** *** The turns of the handlers

    An [async] handler runs up to its first [await] when it is called, and
    from one [await] to the next when the awaited promise is settled.
    Between two turns of one invocation the host may run the turns of
    others. *)

(** The context-menu handler from its call to
    [await this.sketchServiceClient.currentSketch()]: the request is sent.
    The answer is [None] when the handler has returned for want of an anchor
    element, and the element it goes on with otherwise. *)
Definition context_menu_called (arg : Arg) : Js (option HTMLElement.t) :=
  (* cleanup previous context menu entries *)
  DisposableCollection_dispose ;;
  container <- eval (arg_event_target arg) ;;
  match container with
  | None => ret None
  | Some container => call Call_currentSketch ;; ret (Some container)
  end.

(** The context-menu handler from the answer of the sketch service to its
    end. *)
Definition context_menu_resumed
    (currentSketch : option Sketch.t) (arg : Arg) (container : HTMLElement.t)
  : Js unit :=
  current <- eval (isCurrentSketch currentSketch arg) ;;
  (if current : bool then
     let placeholder :=
       PlaceholderMenuNode SKETCHBOOK__CONTEXT__MAIN_GROUP
                           (Command.label OPEN_NEW_WINDOW) in
     registerMenuNode SKETCHBOOK__CONTEXT__MAIN_GROUP placeholder ;;
     DisposableCollection_push
       (Disposable_unregisterMenuNode (MenuNode_id placeholder))
   else
     registerMenuAction SKETCHBOOK__CONTEXT__MAIN_GROUP
       (MenuAction.mk (Command.id OPEN_NEW_WINDOW)
                      (Command.label OPEN_NEW_WINDOW) None) ;;
     DisposableCollection_push
       (Disposable_unregisterMenuAction OPEN_NEW_WINDOW)) ;;
  let options :=
    RenderContextMenuOptions.mk
      SKETCHBOOK__CONTEXT
      (Anchor.mk (HTMLElement.left container)
                 (number_add (HTMLElement.top container)
                             (HTMLElement.offsetHeight container)))
      arg in
  contextMenuRenderer_render options.

(** "Open in new window" up to [await ...toUnderlyingResource(...)], and
    from the answer of the file service on. *)
Definition open_new_window_called (arg : Arg) : Js URI.t :=
  uri <- eval (arg_node_uri arg) ;;
  call (Call_toUnderlyingResource uri) ;;
  ret uri.

Definition open_new_window_resumed (underlying : URI.t) : Js unit :=
  workspaceService_open underlying.

(** The tab-change handler up to [await this.widget]: the URI it goes on
    with, if it goes on; from there to [await model.revealFile(...)]; and
    from the answer of the tree model on. *)
Definition tab_change_called (sv : Services.t) : option URI.t :=
  if Services.autoReveal sv then
    if Navigatable_is (Services.currentWidget sv) then
      widget_getResourceUri (Services.currentWidget sv)
    else None
  else None.

Definition tab_change_widget_ready (resourceUri : URI.t) : Js unit :=
  call (Call_revealFile resourceUri).

Definition tab_change_revealed (node : option TreeNode.t) : Js unit :=
  if SelectableTreeNode_is node then
    match node with
    | Some n => model_selectNode n
    | None => ret tt
    end
  else ret tt.

(** An invocation suspended at an [await], with what it goes on with. *)
Inductive Pending : Type :=
| Pending_currentSketch (arg : Arg) (container : HTMLElement.t)
| Pending_toUnderlyingResource (uri : URI.t)
| Pending_widget (resourceUri : URI.t)
| Pending_revealFile (resourceUri : URI.t).

(** The states the contribution reaches, with the invocations that are
    suspended in them.  It starts with an empty disposal collection and no
    "open in new window" entry; the host then runs one turn at a time: the
    call of a handler, or the resumption of any suspended invocation on
    whatever the awaited service answers.  A promise that is rejected ends
    its invocation there. *)
Inductive reaches : World.t -> list Pending -> Prop :=
| reaches_start w :
    toDisposeBeforeNewContextMenu w = [] ->
    live_registrations (menuRegistry w) = [] ->
    reaches w []
| reaches_context_menu_called w p arg :
    reaches w p ->
    reaches (snd (context_menu_called arg w))
            (match fst (context_menu_called arg w) with
             | Returned (Some container) =>
                 p ++ [Pending_currentSketch arg container]
             | _ => p
             end)
| reaches_context_menu_resumed w p1 p2 arg container currentSketch :
    reaches w (p1 ++ Pending_currentSketch arg container :: p2) ->
    reaches (snd (context_menu_resumed currentSketch arg container w))
            (p1 ++ p2)
| reaches_open_new_window_called w p arg :
    reaches w p ->
    reaches (snd (open_new_window_called arg w))
            (match fst (open_new_window_called arg w) with
             | Returned uri => p ++ [Pending_toUnderlyingResource uri]
             | Threw _ => p
             end)
| reaches_open_new_window_resumed w p1 p2 uri underlying :
    reaches w (p1 ++ Pending_toUnderlyingResource uri :: p2) ->
    reaches (snd (open_new_window_resumed underlying w)) (p1 ++ p2)
| reaches_reveal_in_finder w p sv arg :
    reaches w p ->
    reaches (snd (REVEAL_IN_FINDER_execute sv arg w)) p
| reaches_tab_change_called w p sv :
    reaches w p ->
    reaches w (match tab_change_called sv with
               | Some resourceUri => p ++ [Pending_widget resourceUri]
               | None => p
               end)
| reaches_tab_change_widget_ready w p1 p2 resourceUri :
    reaches w (p1 ++ Pending_widget resourceUri :: p2) ->
    reaches (snd (tab_change_widget_ready resourceUri w))
            (p1 ++ p2 ++ [Pending_revealFile resourceUri])
| reaches_tab_change_revealed w p1 p2 resourceUri node :
    reaches w (p1 ++ Pending_revealFile resourceUri :: p2) ->
    reaches (snd (tab_change_revealed node w)) (p1 ++ p2)
| reaches_rejected w p1 p2 q :
    reaches w (p1 ++ q :: p2) ->
    reaches w (p1 ++ p2).

Definition reachable (w : World.t) : Prop := exists p, reaches w p.

(** *** How the disposal collection and the context-menu handler run *)

Lemma Js_bind_run {A B : Type} (m : Js A) (k : A -> Js B) (w : World.t) :
  bind m k w
  = match m w with
    | (Returned a, w') => k a w'
    | (Threw e, w') => (Threw e, w')
    end.
Proof. reflexivity. Qed.

Lemma dispose_each_run (ds : list Disposable) :
  forall w,
    dispose_each ds w
    = (Returned tt,
       World.mk (fold_left revoke ds (menuRegistry w))
                (toDisposeBeforeNewContextMenu w)
                (selectedNodes w)
                (calls w ++ map Disposable_call ds)).
Proof.
  induction ds as [|d ds IH]; intros [r c s t].
  - cbn. now rewrite app_nil_r.
  - destruct d; cbn; rewrite IH; cbn; now rewrite <- app_assoc.
Qed.

Lemma DisposableCollection_dispose_run (w : World.t) :
  DisposableCollection_dispose w = (Returned tt, disposed w).
Proof.
  unfold DisposableCollection_dispose, disposed. cbn.
  now rewrite dispose_each_run.
Qed.

Lemma context_menu_run (sv : Services.t) (arg : Arg) (w : World.t) :
  OPEN_SKETCHBOOK_CONTEXT_MENU_execute sv arg w = context_menu_outcome sv arg w.
Proof.
  unfold OPEN_SKETCHBOOK_CONTEXT_MENU_execute, context_menu_outcome.
  rewrite Js_bind_run, DisposableCollection_dispose_run.
  rewrite Js_bind_run. unfold eval.
  destruct (arg_event_target arg) as [[container|]|e]; cbn; try reflexivity.
  destruct (isCurrentSketch (Services.currentSketch sv) arg)
    as [[|]|e]; cbn; try reflexivity;
    unfold contextMenuRenderer_render, call; cbn;
    now rewrite <- !app_assoc.
Qed.

(** *** The handlers, turn by turn *)

Lemma context_menu_called_run (arg : Arg) (w : World.t) :
  context_menu_called arg w
  = match arg_event_target arg with
    | Threw e => (Threw e, disposed w)
    | Returned None => (Returned None, disposed w)
    | Returned (Some container) =>
        (Returned (Some container),
         World.mk (menuRegistry (disposed w)) [] (selectedNodes w)
                  (calls (disposed w) ++ [Call_currentSketch]))
    end.
Proof.
  unfold context_menu_called.
  rewrite Js_bind_run, DisposableCollection_dispose_run.
  rewrite Js_bind_run. unfold eval.
  destruct (arg_event_target arg) as [[container|]|e]; reflexivity.
Qed.

Lemma context_menu_resumed_run
    (currentSketch : option Sketch.t) (arg : Arg) (container : HTMLElement.t)
    (w : World.t) :
  context_menu_resumed currentSketch arg container w
  = match isCurrentSketch currentSketch arg with
    | Threw e => (Threw e, w)
    | Returned current =>
        (Returned tt,
         World.mk
           (menuRegistry w
            ++ [(SKETCHBOOK__CONTEXT__MAIN_GROUP, entry_variant current)])
           (toDisposeBeforeNewContextMenu w ++ [entry_disposable current])
           (selectedNodes w)
           (calls w
            ++ [register_call current;
                Call_render
                  (RenderContextMenuOptions.mk
                     SKETCHBOOK__CONTEXT
                     (Anchor.mk
                        (HTMLElement.left container)
                        (number_add (HTMLElement.top container)
                                    (HTMLElement.offsetHeight container)))
                     arg)]))
    end.
Proof.
  unfold context_menu_resumed. rewrite Js_bind_run. unfold eval.
  destruct (isCurrentSketch currentSketch arg) as [[|]|e]; cbn;
    try reflexivity;
    unfold contextMenuRenderer_render, call; cbn;
    now rewrite <- !app_assoc.
Qed.

(** Run without another turn in between, the two turns are the handler. *)
Lemma context_menu_turns (sv : Services.t) (arg : Arg) (w : World.t) :
  OPEN_SKETCHBOOK_CONTEXT_MENU_execute sv arg w
  = match context_menu_called arg w with
    | (Returned (Some container), w1) =>
        context_menu_resumed (Services.currentSketch sv) arg container w1
    | (Returned None, w1) => (Returned tt, w1)
    | (Threw e, w1) => (Threw e, w1)
    end.
Proof.
  rewrite context_menu_run, context_menu_called_run.
  unfold context_menu_outcome.
  destruct (arg_event_target arg) as [[container|]|e]; try reflexivity.
  rewrite context_menu_resumed_run.
  destruct (isCurrentSketch _ arg) as [current|e]; cbn; [|reflexivity].
  now rewrite <- !app_assoc.
Qed.

Lemma open_new_window_turns (sv : Services.t) (arg : Arg) (w : World.t) :
  OPEN_NEW_WINDOW_execute sv arg w
  = match open_new_window_called arg w with
    | (Returned uri, w1) =>
        open_new_window_resumed (Services.toUnderlyingResource sv uri) w1
    | (Threw e, w1) => (Threw e, w1)
    end.
Proof.
  unfold OPEN_NEW_WINDOW_execute, open_new_window_called, arg_node_uri.
  destruct (arg_node arg); reflexivity.
Qed.

Lemma tab_change_turns (sv : Services.t) (w : World.t) :
  onCurrentWidgetChangedHandler sv w
  = match tab_change_called sv with
    | Some resourceUri =>
        tab_change_revealed
          (Services.revealFile sv resourceUri)
          (snd (tab_change_widget_ready resourceUri w))
    | None => (Returned tt, w)
    end.
Proof.
  unfold onCurrentWidgetChangedHandler, selectWidgetFileNode,
    tab_change_called.
  destruct (Services.autoReveal sv); [|reflexivity].
  destruct (Navigatable_is _); [|reflexivity].
  destruct (widget_getResourceUri _) as [uri|]; reflexivity.
Qed.

(** Handlers that do not overlap are one schedule among the others. *)
Lemma sequential_reaches (w : World.t) : sequential w -> reaches w [].
Proof.
  induction 1 as [w Hds Hr | w sv arg _ IH | w sv arg _ IH
                 | w sv arg _ IH | w sv _ IH].
  - now apply reaches_start.
  - rewrite context_menu_turns.
    pose proof (reaches_context_menu_called w [] arg IH) as Hc.
    destruct (context_menu_called arg w) as [[[container|]|e] w1];
      cbn [fst snd app] in *; try exact Hc.
    exact (reaches_context_menu_resumed
             w1 [] [] arg container (Services.currentSketch sv) Hc).
  - rewrite open_new_window_turns.
    pose proof (reaches_open_new_window_called w [] arg IH) as Hc.
    destruct (open_new_window_called arg w) as [[uri|e] w1];
      cbn [fst snd app] in *; try exact Hc.
    exact (reaches_open_new_window_resumed
             w1 [] [] uri (Services.toUnderlyingResource sv uri) Hc).
  - now apply reaches_reveal_in_finder.
  - rewrite tab_change_turns.
    pose proof (reaches_tab_change_called w [] sv IH) as Hc.
    destruct (tab_change_called sv) as [uri|]; cbn [app] in *; [|exact Hc].
    pose proof (reaches_tab_change_widget_ready w [] [] uri Hc) as Hw.
    exact (reaches_tab_change_revealed
             _ [] [] uri (Services.revealFile sv uri) Hw).
Qed.

(** *** Command enablement guards *)

(** The guard [!!arg && 'node' in arg && SketchDirNode.is(arg.node)],
    shape by shape. *)
Lemma guard_run (arg : Arg) :
  OPEN_NEW_WINDOW_isEnabled arg
  = match arg with
    | Primitive => Threw TypeError
    | _ => Returned (sketch_dir_argument arg)
    end.
Proof.
  destruct arg as [| |[[|v] ev]]; reflexivity.
Qed.

Lemma guard_true_iff (arg : Arg) :
  OPEN_NEW_WINDOW_isEnabled arg = Returned true
  <-> truthy arg = true /\ carries_node arg = true
      /\ SketchDirNode_is (arg_node arg) = true.
Proof.
  rewrite guard_run.
  destruct arg as [| |o]; cbn.
  - split; [discriminate | intros [H _]; discriminate].
  - split; [discriminate | intros (_ & H & _); discriminate].
  - unfold sketch_dir_argument; cbn.
    destruct (has (ArgObject.node o)), (SketchDirNode_is (get (ArgObject.node o)));
      cbn; intuition congruence.
Qed.

Lemma guard_caught (arg : Arg) :
  match OPEN_NEW_WINDOW_isEnabled arg with
  | Returned true => true
  | _ => false
  end = sketch_dir_argument arg.
Proof.
  rewrite guard_run. destruct arg as [| |o]; try reflexivity.
  now destruct (sketch_dir_argument (Object o)).
Qed.

Lemma sketch_dir_argument_true (arg : Arg) :
  sketch_dir_argument arg = true
  <-> truthy arg = true /\ carries_node arg = true
      /\ SketchDirNode_is (arg_node arg) = true.
Proof.
  unfold sketch_dir_argument. rewrite !andb_true_iff. tauto.
Qed.

Lemma sketch_dir_argument_false (arg : Arg) :
  carries_node arg = false \/ SketchDirNode_is (arg_node arg) = false ->
  sketch_dir_argument arg = false.
Proof.
  unfold sketch_dir_argument.
  intros [-> | ->]; [now rewrite andb_false_r | apply andb_false_r].
Qed.

(** C4.  The handlers [registerCommands] registers for "open in new window"
    and "reveal in file system" have one and the same enablement and
    visibility predicate.  For every argument, each of the two commands is
    enabled, and is visible, if and only if the argument is truthy, carries
    a 'node' property and that node is a sketch-directory node; in
    particular neither is enabled or visible for an argument that has no
    node or whose node is not a sketch-directory node. *)
Theorem open_and_reveal_share_guard (sv : Services.t) (arg : Arg) :
  let open := OPEN_NEW_WINDOW_handler sv in
  let reveal := REVEAL_IN_FINDER_handler sv in
  let sketch_dir_node :=
    truthy arg = true /\ carries_node arg = true
    /\ SketchDirNode_is (arg_node arg) = true in
  (In (OPEN_NEW_WINDOW, open) (registerCommands sv)
   /\ In (REVEAL_IN_FINDER, reveal) (registerCommands sv))
  /\ (isVisible open arg = isEnabled open arg
      /\ isEnabled reveal arg = isEnabled open arg
      /\ isVisible reveal arg = isEnabled open arg)
  /\ (commandEnabled open arg = true <-> sketch_dir_node)
  /\ (commandVisible open arg = true <-> sketch_dir_node)
  /\ (commandEnabled reveal arg = true <-> sketch_dir_node)
  /\ (commandVisible reveal arg = true <-> sketch_dir_node)
  /\ (carries_node arg = false \/ SketchDirNode_is (arg_node arg) = false ->
      commandEnabled open arg = false /\ commandVisible open arg = false
      /\ commandEnabled reveal arg = false
      /\ commandVisible reveal arg = false).
Proof.
  intros open reveal sketch_dir_node.
  assert (Hall : commandEnabled open arg = sketch_dir_argument arg
                 /\ commandVisible open arg = sketch_dir_argument arg
                 /\ commandEnabled reveal arg = sketch_dir_argument arg
                 /\ commandVisible reveal arg = sketch_dir_argument arg).
  { repeat split; apply guard_caught. }
  destruct Hall as (Eo & Vo & Er & Vr).
  split; [split; cbn; auto|].
  split; [repeat split; reflexivity|].
  rewrite Eo, Vo, Er, Vr.
  repeat (split; [apply sketch_dir_argument_true|]).
  intros Hno. rewrite (sketch_dir_argument_false arg Hno). auto.
Qed.

(** C9.  The handler [registerCommands] registers for the command that
    opens the context menu has the same enablement and visibility predicate
    as the two other commands: the command is enabled, and is visible, if
    and only if the argument is truthy, has a 'node' property and that node
    is a sketch-directory node.  Executed through the command registry, the
    handler runs for such an argument and for no other: the call is rejected
    and nothing changes, so no context menu is opened for anything but a
    sketch-directory node. *)
Theorem context_menu_guarded (sv : Services.t) (arg : Arg) :
  let menu := OPEN_SKETCHBOOK_CONTEXT_MENU_handler sv in
  let sketch_dir_node :=
    truthy arg = true /\ carries_node arg = true
    /\ SketchDirNode_is (arg_node arg) = true in
  In (OPEN_SKETCHBOOK_CONTEXT_MENU, menu) (registerCommands sv)
  /\ (isEnabled menu arg = isEnabled (OPEN_NEW_WINDOW_handler sv) arg
      /\ isEnabled menu arg = isEnabled (REVEAL_IN_FINDER_handler sv) arg
      /\ isVisible menu arg = isVisible (OPEN_NEW_WINDOW_handler sv) arg
      /\ isVisible menu arg = isVisible (REVEAL_IN_FINDER_handler sv) arg)
  /\ (commandEnabled menu arg = true <-> sketch_dir_node)
  /\ (commandVisible menu arg = true <-> sketch_dir_node)
  /\ (forall w,
        sketch_dir_node ->
        executeCommand menu arg w
        = OPEN_SKETCHBOOK_CONTEXT_MENU_execute sv arg w)
  /\ (forall w,
        ~ sketch_dir_node ->
        executeCommand menu arg w = (Threw NoActiveHandler, w)).
Proof.
  intros menu sketch_dir_node.
  assert (He : commandEnabled menu arg = sketch_dir_argument arg)
    by apply guard_caught.
  assert (Hv : commandVisible menu arg = sketch_dir_argument arg)
    by apply guard_caught.
  split; [cbn; auto|].
  split; [repeat split; reflexivity|].
  rewrite He, Hv.
  split; [apply sketch_dir_argument_true|].
  split; [apply sketch_dir_argument_true|].
  split; intros w Hn; unfold executeCommand; rewrite He.
  - apply sketch_dir_argument_true in Hn. now rewrite Hn.
  - destruct (sketch_dir_argument arg) eqn:Hs; [|reflexivity].
    exfalso. apply Hn. now apply sketch_dir_argument_true.
Qed.

(** *** Tab-change selection sync *)

(** C6.  A tab-change event changes nothing at all, the tree selection
    included, when the auto-reveal preference is off, when the active widget
    is missing or not navigatable, and when the widget has no resource
    URI. *)
Theorem tab_change_frame (sv : Services.t) (w : World.t) :
  Services.autoReveal sv = false
  \/ Navigatable_is (Services.currentWidget sv) = false
  \/ widget_getResourceUri (Services.currentWidget sv) = None ->
  selectedNodes (snd (onCurrentWidgetChangedHandler sv w)) = selectedNodes w
  /\ onCurrentWidgetChangedHandler sv w = (Returned tt, w).
Proof.
  unfold onCurrentWidgetChangedHandler, selectWidgetFileNode.
  intros [H | [H | H]]; rewrite ?H.
  - now split.
  - now destruct (Services.autoReveal sv).
  - destruct (Services.autoReveal sv),
      (Navigatable_is (Services.currentWidget sv)); now split.
Qed.

(** C3.  On a tab-change event with auto-reveal on and a widget that has a
    resource URI, the tree model is asked to reveal that URI.  A selectable
    node it answers becomes the one selected node.  When it answers no node,
    or a node that is not selectable, the selection and the rest of the state
    stay as they were, and in every case the handler returns without an
    error. *)
Theorem tab_change_reveals_and_selects
    (sv : Services.t) (w : World.t) (uri : URI.t) :
  Services.autoReveal sv = true ->
  Navigatable_is (Services.currentWidget sv) = true ->
  widget_getResourceUri (Services.currentWidget sv) = Some uri ->
  let out := onCurrentWidgetChangedHandler sv w in
  fst out = Returned tt
  /\ (exists rest, calls (snd out) = calls w ++ Call_revealFile uri :: rest)
  /\ (forall n,
        Services.revealFile sv uri = Some n ->
        TreeNode.selectable n = true ->
        selectedNodes (snd out) = [n]
        /\ calls (snd out) = calls w ++ [Call_revealFile uri; Call_selectNode n])
  /\ (SelectableTreeNode_is (Services.revealFile sv uri) = false ->
      snd out
      = World.mk (menuRegistry w) (toDisposeBeforeNewContextMenu w)
                 (selectedNodes w) (calls w ++ [Call_revealFile uri])).
Proof.
  intros Hpref Hnav Huri.
  unfold onCurrentWidgetChangedHandler, selectWidgetFileNode.
  rewrite Hpref, Hnav, Huri. cbn.
  destruct (Services.revealFile sv uri) as [n|] eqn:Hreveal; cbn.
  - destruct (TreeNode.selectable n) eqn:Hsel; cbn;
      (split; [reflexivity | split; [|split]]).
    + exists [Call_selectNode n]. now rewrite <- app_assoc.
    + intros n' [= <-] _. split; [reflexivity | now rewrite <- app_assoc].
    + discriminate.
    + now exists [].
    + intros n' [= <-] Hsel'. congruence.
    + reflexivity.
  - split; [reflexivity | split; [|split]].
    + now exists [].
    + discriminate.
    + reflexivity.
Qed.

(** *** The two commands of the context menu *)

(** C7.  Executed on an argument that carries a node, "open in new window"
    first asks the file service for the resource underlying the node's URI
    and then opens what the file service answered through the workspace
    service; nothing else changes. *)
Theorem open_new_window_resolves_then_opens
    (sv : Services.t) (arg : Arg) (n : TreeNode.t) (w : World.t) :
  arg_node arg = Some n ->
  OPEN_NEW_WINDOW_execute sv arg w
  = (Returned tt,
     World.mk
       (menuRegistry w) (toDisposeBeforeNewContextMenu w) (selectedNodes w)
       (calls w
        ++ [Call_toUnderlyingResource (TreeNode.uri n);
            Call_workspace_open
              (Services.toUnderlyingResource sv (TreeNode.uri n))])).
Proof.
  intros Hn. unfold OPEN_NEW_WINDOW_execute, arg_node_uri. rewrite Hn. cbn.
  unfold workspaceService_open, call; cbn.
  now rewrite <- app_assoc.
Qed.

(** C10.  Executed on an argument that carries a node, "reveal in file
    system" makes one call, [shell.openPath], on the node's [id] (the URI is
    not read), and returns [undefined] whatever that call answers. *)
Theorem reveal_in_finder_opens_node_id
    (sv : Services.t) (arg : Arg) (n : TreeNode.t) (w : World.t) :
  arg_node arg = Some n ->
  REVEAL_IN_FINDER_execute sv arg w
  = (Returned tt,
     World.mk
       (menuRegistry w) (toDisposeBeforeNewContextMenu w) (selectedNodes w)
       (calls w ++ [Call_openPath (TreeNode.id n)]))
  /\ (forall sv',
        REVEAL_IN_FINDER_execute sv' arg w = REVEAL_IN_FINDER_execute sv arg w).
Proof.
  intros Hn. unfold REVEAL_IN_FINDER_execute, arg_node_id. rewrite Hn.
  split; reflexivity.
Qed.

(** *** Context menu build *)

(** C2.  With an anchor element and a clicked node, the entry the handler
    registers under the main group is decided by the current sketch: when
    there is one and its [uri] is the string of the node's URI, the entry is
    the placeholder, which runs no command; in every other case it is the
    menu action bound to the "open in new window" command. *)
Theorem context_menu_entry_variant
    (sv : Services.t) (arg : Arg) (container : HTMLElement.t)
    (n : TreeNode.t) (w : World.t) :
  arg_event_target arg = Returned (Some container) ->
  arg_node arg = Some n ->
  let is_current :=
    exists sketch,
      Services.currentSketch sv = Some sketch
      /\ Sketch.uri sketch = URI.toString (TreeNode.uri n) in
  let registry' :=
    menuRegistry (snd (OPEN_SKETCHBOOK_CONTEXT_MENU_execute sv arg w)) in
  (is_current ->
   registry'
   = menuRegistry (disposed w)
     ++ [(SKETCHBOOK__CONTEXT__MAIN_GROUP,
          PlaceholderMenuNode SKETCHBOOK__CONTEXT__MAIN_GROUP
                              (Command.label OPEN_NEW_WINDOW))])
  /\ (~ is_current ->
      registry'
      = menuRegistry (disposed w)
        ++ [(SKETCHBOOK__CONTEXT__MAIN_GROUP,
             ActionMenuNode
               (MenuAction.mk (Command.id OPEN_NEW_WINDOW)
                              (Command.label OPEN_NEW_WINDOW) None))])
  /\ actionable placeholder_entry = None
  /\ actionable action_entry = Some (Command.id OPEN_NEW_WINDOW).
Proof.
  intros Htarget Hnode is_current registry'. subst registry'.
  rewrite context_menu_run. unfold context_menu_outcome.
  rewrite Htarget. unfold isCurrentSketch, arg_node_uri. rewrite Hnode.
  split; [|split; [|split; reflexivity]].
  - intros (sketch & -> & Huri). cbn. rewrite Huri, String.eqb_refl.
    reflexivity.
  - intros Hnot. destruct (Services.currentSketch sv) as [sketch|]; cbn.
    + destruct (String.eqb_spec (Sketch.uri sketch)
                                (URI.toString (TreeNode.uri n))) as [Heq|Hne].
      * exfalso. apply Hnot. now exists sketch.
      * reflexivity.
    + reflexivity.
Qed.

(** C5 (as amended).  When the event has no anchor element the handler
    returns without an error after its cleanup: the entries of the previous
    invocation are revoked and the disposal collection is emptied, no entry
    is registered, no menu is rendered, and the selection is untouched.  With
    an empty disposal collection the whole state is left as it was. *)
Theorem context_menu_without_anchor
    (sv : Services.t) (arg : Arg) (w : World.t) :
  arg_event_target arg = Returned None ->
  let out := OPEN_SKETCHBOOK_CONTEXT_MENU_execute sv arg w in
  fst out = Returned tt
  /\ menuRegistry (snd out)
     = fold_left revoke (rev (toDisposeBeforeNewContextMenu w)) (menuRegistry w)
  /\ toDisposeBeforeNewContextMenu (snd out) = []
  /\ selectedNodes (snd out) = selectedNodes w
  /\ calls (snd out)
     = calls w ++ map Disposable_call (rev (toDisposeBeforeNewContextMenu w))
  /\ (toDisposeBeforeNewContextMenu w = [] -> snd out = w).
Proof.
  intros Htarget out. subst out.
  rewrite context_menu_run. unfold context_menu_outcome. rewrite Htarget.
  cbn. repeat (split; [reflexivity|]).
  intros Hempty. destruct w as [r ds s c]. cbn in *. subst ds.
  unfold disposed. cbn. now rewrite app_nil_r.
Qed.

(** C8.  When the handler renders a menu, the calls it makes are, in this
    order: the unregistrations of the disposal collection (newest first),
    the query for the current sketch, the registration of one of the two
    entry variants, and the rendering of the context menu of
    [SKETCHBOOK__CONTEXT] with the argument, anchored at [x] = left edge of
    the element's bounding box and [y] = its top edge plus the element's
    height.  The registry is the one left by the disposal plus that one
    entry. *)
Theorem context_menu_order
    (sv : Services.t) (arg : Arg) (container : HTMLElement.t)
    (current : bool) (w : World.t) :
  arg_event_target arg = Returned (Some container) ->
  isCurrentSketch (Services.currentSketch sv) arg = Returned current ->
  let out := OPEN_SKETCHBOOK_CONTEXT_MENU_execute sv arg w in
  fst out = Returned tt
  /\ calls (snd out)
     = calls w
       ++ map Disposable_call (rev (toDisposeBeforeNewContextMenu w))
       ++ [Call_currentSketch;
           register_call current;
           Call_render
             (RenderContextMenuOptions.mk
                SKETCHBOOK__CONTEXT
                (Anchor.mk (HTMLElement.left container)
                           (number_add (HTMLElement.top container)
                                       (HTMLElement.offsetHeight container)))
                arg)]
  /\ menuRegistry (snd out)
     = fold_left revoke (rev (toDisposeBeforeNewContextMenu w)) (menuRegistry w)
       ++ [(SKETCHBOOK__CONTEXT__MAIN_GROUP, entry_variant current)].
Proof.
  intros Htarget Hcurrent out. subst out.
  rewrite context_menu_run. unfold context_menu_outcome.
  rewrite Htarget, Hcurrent. cbn.
  repeat split. now rewrite <- app_assoc.
Qed.

(** *** No accumulation of "open in new window" entries *)

Lemma entry_variant_is_open_in_new_window (current : bool) :
  is_open_in_new_window (entry_variant current) = true.
Proof.
  destruct current;
    unfold entry_variant, placeholder_entry, action_entry,
      is_open_in_new_window.
  - destruct (list_eq_dec string_dec SKETCHBOOK__CONTEXT__MAIN_GROUP
                          SKETCHBOOK__CONTEXT__MAIN_GROUP) as [_|Hne];
      [|now destruct Hne].
    destruct (Command.label OPEN_NEW_WINDOW); [apply String.eqb_refl | easy].
  - apply String.eqb_refl.
Qed.

Lemma entry_disposable_revokes (current : bool) :
  revoke [(SKETCHBOOK__CONTEXT__MAIN_GROUP, entry_variant current)]
         (entry_disposable current) = [].
Proof.
  destruct current; unfold revoke; cbn; now rewrite String.eqb_refl.
Qed.

Lemma revoke_app (r1 r2 : list (MenuPath * MenuNode)) (d : Disposable) :
  revoke (r1 ++ r2) d = revoke r1 d ++ revoke r2 d.
Proof. apply filter_app. Qed.

Lemma live_registrations_app (r1 r2 : list (MenuPath * MenuNode)) :
  live_registrations (r1 ++ r2)
  = live_registrations r1 ++ live_registrations r2.
Proof. apply filter_app. Qed.

Lemma live_registrations_revoke (r : list (MenuPath * MenuNode))
    (d : Disposable) :
  live_registrations r = [] -> live_registrations (revoke r d) = [].
Proof.
  unfold live_registrations, revoke.
  induction r as [|e r IH]; cbn; [reflexivity|].
  destruct (is_open_in_new_window (snd e)) eqn:He; [discriminate|].
  intros Hr. destruct (negb _); cbn; rewrite ?He; auto.
Qed.

Lemma live_registrations_fold_revoke (ds : list Disposable) :
  forall r,
    live_registrations r = [] ->
    live_registrations (fold_left revoke ds r) = [].
Proof.
  induction ds as [|d ds IH]; cbn; intros r Hr; [exact Hr|].
  apply IH. now apply live_registrations_revoke.
Qed.

Lemma tracked_start (w : World.t) :
  toDisposeBeforeNewContextMenu w = [] ->
  live_registrations (menuRegistry w) = [] ->
  tracked w.
Proof.
  intros Hds Hr. unfold tracked, disposed. rewrite Hds, Hr. cbn. auto.
Qed.

Lemma tracked_same_menus (w w' : World.t) :
  menuRegistry w' = menuRegistry w ->
  toDisposeBeforeNewContextMenu w' = toDisposeBeforeNewContextMenu w ->
  tracked w -> tracked w'.
Proof.
  unfold tracked, disposed. cbn. now intros -> ->.
Qed.

Lemma tracked_context_menu (sv : Services.t) (arg : Arg) (w : World.t) :
  tracked w -> tracked (snd (OPEN_SKETCHBOOK_CONTEXT_MENU_execute sv arg w)).
Proof.
  intros [_ Hd]. rewrite context_menu_run. unfold context_menu_outcome.
  assert (Hds : toDisposeBeforeNewContextMenu (disposed w) = [])
    by reflexivity.
  remember (disposed w) as d eqn:Ed. clear Ed.
  destruct (arg_event_target arg) as [[container|]|e]; cbn [snd];
    try (now apply tracked_start).
  destruct (isCurrentSketch _ arg) as [current|e]; cbn [snd];
    try (now apply tracked_start).
  unfold tracked, disposed. cbn [menuRegistry toDisposeBeforeNewContextMenu rev].
  split.
  - rewrite live_registrations_app, Hd. cbn.
    now rewrite entry_variant_is_open_in_new_window.
  - cbn [app fold_left]. rewrite revoke_app, entry_disposable_revokes, app_nil_r.
    now apply live_registrations_revoke.
Qed.

Lemma open_new_window_keeps_menus (sv : Services.t) (arg : Arg) (w : World.t) :
  let w' := snd (OPEN_NEW_WINDOW_execute sv arg w) in
  menuRegistry w' = menuRegistry w
  /\ toDisposeBeforeNewContextMenu w' = toDisposeBeforeNewContextMenu w.
Proof.
  unfold OPEN_NEW_WINDOW_execute, arg_node_uri.
  destruct (arg_node arg); now cbn.
Qed.

Lemma reveal_in_finder_keeps_menus (sv : Services.t) (arg : Arg) (w : World.t) :
  let w' := snd (REVEAL_IN_FINDER_execute sv arg w) in
  menuRegistry w' = menuRegistry w
  /\ toDisposeBeforeNewContextMenu w' = toDisposeBeforeNewContextMenu w.
Proof.
  unfold REVEAL_IN_FINDER_execute, arg_node_id.
  destruct (arg_node arg); now cbn.
Qed.

Lemma tab_change_keeps_menus (sv : Services.t) (w : World.t) :
  let w' := snd (onCurrentWidgetChangedHandler sv w) in
  menuRegistry w' = menuRegistry w
  /\ toDisposeBeforeNewContextMenu w' = toDisposeBeforeNewContextMenu w.
Proof.
  unfold onCurrentWidgetChangedHandler, selectWidgetFileNode.
  destruct (Services.autoReveal sv); [|now cbn].
  destruct (Navigatable_is _); [|now cbn].
  destruct (widget_getResourceUri _) as [uri|]; [|now cbn].
  cbn. destruct (Services.revealFile sv uri) as [n|]; [|now cbn].
  cbn. destruct (TreeNode.selectable n); now cbn.
Qed.

Lemma sequential_tracked (w : World.t) : sequential w -> tracked w.
Proof.
  induction 1 as [w Hds Hr | w sv arg _ IH | w sv arg _ IH
                 | w sv arg _ IH | w sv _ IH].
  - now apply tracked_start.
  - now apply tracked_context_menu.
  - destruct (open_new_window_keeps_menus sv arg w) as [Hr Hds].
    exact (tracked_same_menus _ _ Hr Hds IH).
  - destruct (reveal_in_finder_keeps_menus sv arg w) as [Hr Hds].
    exact (tracked_same_menus _ _ Hr Hds IH).
  - destruct (tab_change_keeps_menus sv w) as [Hr Hds].
    exact (tracked_same_menus _ _ Hr Hds IH).
Qed.

(** C1 (as amended).  As long as invocations do not overlap, at most one
    "open in new window" entry is registered at any time: in every state the
    contribution goes through, and after each of two invocations of the
    context-menu handler of which the second is called once the first has
    run to its end.  The cleanup that starts the second invocation leaves
    none of the entries of the first.  The second invocation leaves exactly
    one live entry, its own, with its disposable the only one collected,
    when it has an anchor element and its current-sketch test does not
    throw; it leaves none otherwise. *)
Theorem one_new_window_entry
    (w : World.t) (sv1 sv2 : Services.t) (arg1 arg2 : Arg) :
  sequential w ->
  let w1 := snd (OPEN_SKETCHBOOK_CONTEXT_MENU_execute sv1 arg1 w) in
  let w2 := snd (OPEN_SKETCHBOOK_CONTEXT_MENU_execute sv2 arg2 w1) in
  (length (live_registrations (menuRegistry w)) <= 1
   /\ length (live_registrations (menuRegistry w1)) <= 1
   /\ length (live_registrations (menuRegistry w2)) <= 1)
  /\ live_registrations (menuRegistry (snd (DisposableCollection_dispose w1)))
     = []
  /\ (forall container current,
        arg_event_target arg2 = Returned (Some container) ->
        isCurrentSketch (Services.currentSketch sv2) arg2 = Returned current ->
        live_registrations (menuRegistry w2)
        = [(SKETCHBOOK__CONTEXT__MAIN_GROUP, entry_variant current)]
        /\ toDisposeBeforeNewContextMenu w2 = [entry_disposable current])
  /\ ((forall container, arg_event_target arg2 <> Returned (Some container))
      \/ (exists e,
            isCurrentSketch (Services.currentSketch sv2) arg2 = Threw e) ->
      live_registrations (menuRegistry w2) = []
      /\ toDisposeBeforeNewContextMenu w2 = []).
Proof.
  intros Hw w1 w2.
  assert (Hw1 : sequential w1) by now apply sequential_context_menu.
  assert (Hw2 : sequential w2) by now apply sequential_context_menu.
  pose proof (sequential_tracked _ Hw) as [H0 _].
  pose proof (sequential_tracked _ Hw1) as [H1 Hd1].
  pose proof (sequential_tracked _ Hw2) as [H2 _].
  split; [auto|]. split; [|split].
  - now rewrite DisposableCollection_dispose_run.
  - intros container current Htarget Hcurrent. subst w2.
    rewrite context_menu_run. unfold context_menu_outcome.
    rewrite Htarget, Hcurrent. cbn [snd menuRegistry toDisposeBeforeNewContextMenu].
    split; [|reflexivity].
    rewrite live_registrations_app, Hd1. cbn.
    now rewrite entry_variant_is_open_in_new_window.
  - intros Hnone. subst w2.
    rewrite context_menu_run. unfold context_menu_outcome.
    destruct (arg_event_target arg2) as [[container|]|e];
      try (split; [exact Hd1 | reflexivity]).
    destruct Hnone as [Hno | [e He]]; [now destruct (Hno container)|].
    rewrite He. split; [exact Hd1 | reflexivity].
Qed.

(** *** Errors and edges of the command handlers *)

(** X1.  "Open in new window" on an argument without a node ([undefined], a
    primitive, an object whose [node] is missing or [undefined]) is rejected
    with a TypeError before any service is called: the world is untouched. *)
Theorem open_new_window_without_node
    (sv : Services.t) (arg : Arg) (w : World.t) :
  arg_node arg = None ->
  OPEN_NEW_WINDOW_execute sv arg w = (Threw TypeError, w).
Proof.
  intros Hn. unfold OPEN_NEW_WINDOW_execute, arg_node_uri. now rewrite Hn.
Qed.

(** X2.  "Reveal in file system" on an argument without a node throws a
    TypeError and never reaches [shell.openPath]. *)
Theorem reveal_in_finder_without_node
    (sv : Services.t) (arg : Arg) (w : World.t) :
  arg_node arg = None ->
  REVEAL_IN_FINDER_execute sv arg w = (Threw TypeError, w).
Proof.
  intros Hn. unfold REVEAL_IN_FINDER_execute, arg_node_id. now rewrite Hn.
Qed.

(** X3.  The guards are enough for the two commands: on an argument for
    which [isEnabled] answers true, "open in new window" and "reveal in file
    system" both return without an error. *)
Theorem guard_protects_open_and_reveal
    (sv : Services.t) (arg : Arg) (w : World.t) :
  OPEN_NEW_WINDOW_isEnabled arg = Returned true ->
  REVEAL_IN_FINDER_isEnabled arg = Returned true ->
  fst (OPEN_NEW_WINDOW_execute sv arg w) = Returned tt
  /\ fst (REVEAL_IN_FINDER_execute sv arg w) = Returned tt.
Proof.
  intros Hopen _. apply guard_true_iff in Hopen as (_ & _ & Hdir).
  destruct (arg_node arg) as [n|] eqn:Hn; [|discriminate].
  unfold OPEN_NEW_WINDOW_execute, arg_node_uri,
    REVEAL_IN_FINDER_execute, arg_node_id.
  rewrite Hn. split; reflexivity.
Qed.

(** X4.  The guard is not enough for the context menu: when [arg.event] is
    missing the handler throws a TypeError, and it does so after its
    cleanup, so the error leaves the world disposed. *)
Theorem context_menu_without_event
    (sv : Services.t) (arg : Arg) (e : JsError) (w : World.t) :
  arg_event_target arg = Threw e ->
  e = TypeError
  /\ OPEN_SKETCHBOOK_CONTEXT_MENU_execute sv arg w = (Threw TypeError, disposed w).
Proof.
  intros He. rewrite context_menu_run. unfold context_menu_outcome.
  rewrite He.
  assert (e = TypeError) as ->; [|now split].
  unfold arg_event_target in He.
  destruct arg as [| |o]; try congruence.
  destruct (ArgObject.event o); congruence.
Qed.

(** X5.  With an anchor and a current sketch but no node, the handler throws
    a TypeError once the sketch service has answered: the old entries are
    gone, no entry is registered, no menu is rendered and the collection is
    empty. *)
Theorem context_menu_current_sketch_without_node
    (sv : Services.t) (arg : Arg) (container : HTMLElement.t)
    (sketch : Sketch.t) (w : World.t) :
  arg_event_target arg = Returned (Some container) ->
  Services.currentSketch sv = Some sketch ->
  arg_node arg = None ->
  OPEN_SKETCHBOOK_CONTEXT_MENU_execute sv arg w
  = (Threw TypeError,
     World.mk (menuRegistry (disposed w)) [] (selectedNodes w)
              (calls (disposed w) ++ [Call_currentSketch])).
Proof.
  intros Ht Hs Hn. rewrite context_menu_run. unfold context_menu_outcome.
  rewrite Ht, Hs. unfold isCurrentSketch, arg_node_uri. rewrite Hn.
  reflexivity.
Qed.

(** X6.  Without a current sketch the node is never read: with an anchor the
    handler registers the action and renders the menu for any argument, one
    without a node included. *)
Theorem context_menu_without_current_sketch
    (sv : Services.t) (arg : Arg) (container : HTMLElement.t) (w : World.t) :
  arg_event_target arg = Returned (Some container) ->
  Services.currentSketch sv = None ->
  let out := OPEN_SKETCHBOOK_CONTEXT_MENU_execute sv arg w in
  fst out = Returned tt
  /\ menuRegistry (snd out)
     = menuRegistry (disposed w)
       ++ [(SKETCHBOOK__CONTEXT__MAIN_GROUP, action_entry)]
  /\ toDisposeBeforeNewContextMenu (snd out)
     = [Disposable_unregisterMenuAction OPEN_NEW_WINDOW]
  /\ exists options,
       calls (snd out)
       = calls (disposed w)
         ++ [Call_currentSketch; register_call false; Call_render options]
       /\ RenderContextMenuOptions.args options = arg.
Proof.
  intros Ht Hs out. subst out.
  rewrite context_menu_run. unfold context_menu_outcome.
  rewrite Ht, Hs. cbn.
  repeat (split; [reflexivity|]).
  eexists. split; reflexivity.
Qed.

(** X7.  Turn by turn, the context-menu handler keeps the disposal
    collection in step with its entries.  When it is called, it leaves the
    collection empty, whatever the collection held.  When it is resumed, it
    either throws and changes nothing, or adds exactly one entry to the
    registry and exactly the disposable of that entry to the collection.
    So an invocation that runs without another turn in between leaves at
    most one disposable, and overlapping ones each add their own. *)
Theorem collection_after_context_menu
    (sv : Services.t) (arg : Arg) (container : HTMLElement.t) (w : World.t) :
  (toDisposeBeforeNewContextMenu (snd (context_menu_called arg w)) = []
   /\ menuRegistry (snd (context_menu_called arg w))
      = menuRegistry (disposed w))
  /\ (let out :=
        context_menu_resumed (Services.currentSketch sv) arg container w in
      (exists e, out = (Threw e, w))
      \/ (fst out = Returned tt
          /\ exists current,
               toDisposeBeforeNewContextMenu (snd out)
               = toDisposeBeforeNewContextMenu w ++ [entry_disposable current]
               /\ menuRegistry (snd out)
                  = menuRegistry w
                    ++ [(SKETCHBOOK__CONTEXT__MAIN_GROUP,
                         entry_variant current)]))
  /\ (let out := OPEN_SKETCHBOOK_CONTEXT_MENU_execute sv arg w in
      length (toDisposeBeforeNewContextMenu (snd out)) <= 1
      /\ (toDisposeBeforeNewContextMenu (snd out) = [] ->
          menuRegistry (snd out) = menuRegistry (disposed w))
      /\ (toDisposeBeforeNewContextMenu (snd out) <> [] ->
          fst out = Returned tt
          /\ exists current,
               toDisposeBeforeNewContextMenu (snd out)
               = [entry_disposable current]
               /\ menuRegistry (snd out)
                  = menuRegistry (disposed w)
                    ++ [(SKETCHBOOK__CONTEXT__MAIN_GROUP,
                         entry_variant current)])).
Proof.
  split; [|split].
  - rewrite context_menu_called_run.
    destruct (arg_event_target arg) as [[c|]|e]; split; reflexivity.
  - intros out. subst out. rewrite context_menu_resumed_run.
    destruct (isCurrentSketch _ arg) as [current|e].
    + right. split; [reflexivity|]. now exists current.
    + left. now exists e.
  - intros out. subst out.
    rewrite context_menu_run. unfold context_menu_outcome.
    destruct (arg_event_target arg) as [[c|]|e]; cbn;
      try (split; [lia | split; [reflexivity | congruence]]).
    destruct (isCurrentSketch _ arg) as [current|e]; cbn.
    + split; [lia|]. split; [discriminate|].
      intros _. split; [reflexivity|]. now exists current.
    + split; [lia | split; [reflexivity | congruence]].
Qed.

(** X8.  None of the three command handlers changes the tree selection,
    whether it returns or throws. *)
Theorem commands_keep_selection
    (sv : Services.t) (arg : Arg) (w : World.t) :
  selectedNodes (snd (OPEN_NEW_WINDOW_execute sv arg w)) = selectedNodes w
  /\ selectedNodes (snd (REVEAL_IN_FINDER_execute sv arg w)) = selectedNodes w
  /\ selectedNodes (snd (OPEN_SKETCHBOOK_CONTEXT_MENU_execute sv arg w))
     = selectedNodes w.
Proof.
  split; [|split].
  - unfold OPEN_NEW_WINDOW_execute, arg_node_uri.
    destruct (arg_node arg); reflexivity.
  - unfold REVEAL_IN_FINDER_execute, arg_node_id.
    destruct (arg_node arg); reflexivity.
  - rewrite context_menu_run. unfold context_menu_outcome.
    destruct (arg_event_target arg) as [[container|]|e]; try reflexivity.
    destruct (isCurrentSketch _ arg); reflexivity.
Qed.

(** X12.  The entry of the current sketch is disabled in the menu only: for
    a sketch-directory node that is the current sketch the handler registers
    the placeholder, which runs no command, and yet the "open in new window"
    command, executed through the command registry on the same argument, is
    enabled and opens the sketch. *)
Theorem current_sketch_is_disabled_in_the_menu_only
    (sv : Services.t) (arg : Arg) (container : HTMLElement.t)
    (n : TreeNode.t) (sketch : Sketch.t) (w : World.t) :
  arg_event_target arg = Returned (Some container) ->
  arg_node arg = Some n ->
  TreeNode.isSketchDir n = true ->
  Services.currentSketch sv = Some sketch ->
  Sketch.uri sketch = URI.toString (TreeNode.uri n) ->
  let w1 := snd (OPEN_SKETCHBOOK_CONTEXT_MENU_execute sv arg w) in
  menuRegistry w1
  = menuRegistry (disposed w)
    ++ [(SKETCHBOOK__CONTEXT__MAIN_GROUP, placeholder_entry)]
  /\ actionable placeholder_entry = None
  /\ executeCommand (OPEN_NEW_WINDOW_handler sv) arg w1
     = (Returned tt,
        World.mk
          (menuRegistry w1) (toDisposeBeforeNewContextMenu w1)
          (selectedNodes w1)
          (calls w1
           ++ [Call_toUnderlyingResource (TreeNode.uri n);
               Call_workspace_open
                 (Services.toUnderlyingResource sv (TreeNode.uri n))])).
Proof.
  intros Ht Hn Hdir Hs Huri w1.
  split; [|split; [reflexivity|]].
  - subst w1. rewrite context_menu_run. unfold context_menu_outcome.
    rewrite Ht, Hs. unfold isCurrentSketch, arg_node_uri. rewrite Hn. cbn.
    now rewrite Huri, String.eqb_refl.
  - unfold executeCommand, commandEnabled.
    cbn [isEnabled OPEN_NEW_WINDOW_handler].
    assert (Hg : OPEN_NEW_WINDOW_isEnabled arg = Returned true).
    { apply guard_true_iff. destruct arg as [| |o]; try discriminate.
      cbn in Hn |- *. destruct (ArgObject.node o); [discriminate|].
      cbn in Hn |- *. rewrite Hn. cbn. auto. }
    rewrite Hg.
    change (execute (OPEN_NEW_WINDOW_handler sv))
      with (OPEN_NEW_WINDOW_execute sv).
    clearbody w1.
    unfold OPEN_NEW_WINDOW_execute, arg_node_uri. rewrite Hn. cbn.
    unfold workspaceService_open, call; cbn.
    now rewrite <- app_assoc.
Qed.

(** *** More on the tab-change handler *)

(** X9.  The tab-change handler never throws, and, whatever the preference,
    the widget and the tree model's answer, it leaves the menu registry and
    the disposal collection as they were. *)
Theorem tab_change_returns_and_keeps_menus (sv : Services.t) (w : World.t) :
  let out := onCurrentWidgetChangedHandler sv w in
  fst out = Returned tt
  /\ menuRegistry (snd out) = menuRegistry w
  /\ toDisposeBeforeNewContextMenu (snd out) = toDisposeBeforeNewContextMenu w.
Proof.
  intros out. split; [|apply tab_change_keeps_menus].
  subst out. unfold onCurrentWidgetChangedHandler, selectWidgetFileNode.
  destruct (Services.autoReveal sv); [|reflexivity].
  destruct (Navigatable_is _); [|reflexivity].
  destruct (widget_getResourceUri _) as [uri|]; [|reflexivity].
  cbn. destruct (Services.revealFile sv uri) as [n|]; [|reflexivity].
  cbn. destruct (TreeNode.selectable n); reflexivity.
Qed.

Lemma tab_change_selection (sv : Services.t) (w : World.t) :
  selectedNodes (snd (onCurrentWidgetChangedHandler sv w))
  = match tab_change_target sv with
    | Some n => [n]
    | None => selectedNodes w
    end.
Proof.
  unfold onCurrentWidgetChangedHandler, selectWidgetFileNode,
    tab_change_target.
  destruct (Services.autoReveal sv); [|reflexivity].
  destruct (Navigatable_is _); [|reflexivity].
  destruct (widget_getResourceUri _) as [uri|]; [|reflexivity].
  cbn. destruct (Services.revealFile sv uri) as [n|]; [|reflexivity].
  cbn. destruct (TreeNode.selectable n); reflexivity.
Qed.

Lemma tab_change_selection_cases (sv : Services.t) (w : World.t) :
  selectedNodes (snd (onCurrentWidgetChangedHandler sv w)) = selectedNodes w
  \/ exists uri n,
       widget_getResourceUri (Services.currentWidget sv) = Some uri
       /\ Services.revealFile sv uri = Some n
       /\ TreeNode.selectable n = true
       /\ selectedNodes (snd (onCurrentWidgetChangedHandler sv w)) = [n].
Proof.
  unfold onCurrentWidgetChangedHandler, selectWidgetFileNode.
  destruct (Services.autoReveal sv); [|now left].
  destruct (Navigatable_is _); [|now left].
  destruct (widget_getResourceUri _) as [uri|] eqn:Huri; [|now left].
  cbn. destruct (Services.revealFile sv uri) as [n|] eqn:Hn; [|now left].
  cbn. destruct (TreeNode.selectable n) eqn:Hsel; [|now left].
  right. exists uri, n. repeat split; auto.
Qed.

(** X10.  The tab-change handler only ever selects selectable nodes: if
    every selected node is selectable before a tab change, the same holds
    after it, and the selection has not grown beyond one node unless it was
    left as it was. *)
Theorem tab_change_selects_selectable_only (sv : Services.t) (w : World.t) :
  (forall n, In n (selectedNodes w) -> TreeNode.selectable n = true) ->
  let w' := snd (onCurrentWidgetChangedHandler sv w) in
  (forall n, In n (selectedNodes w') -> TreeNode.selectable n = true)
  /\ (selectedNodes w' = selectedNodes w \/ length (selectedNodes w') = 1).
Proof.
  intros Hall w'. subst w'.
  destruct (tab_change_selection_cases sv w)
    as [-> | (uri & n & _ & _ & Hsel & ->)].
  - split; [exact Hall | now left].
  - split; [|now right].
    intros n' [<- | []]. exact Hsel.
Qed.

(** X11.  A tab-change event handled twice on the same answers of the
    services selects what handling it once selects. *)
Theorem tab_change_twice (sv : Services.t) (w : World.t) :
  selectedNodes
    (snd (onCurrentWidgetChangedHandler
            sv (snd (onCurrentWidgetChangedHandler sv w))))
  = selectedNodes (snd (onCurrentWidgetChangedHandler sv w)).
Proof.
  rewrite !tab_change_selection.
  destruct (tab_change_target sv); reflexivity.
Qed.

(** X13.  [selectWidgetFileNode] itself does not look at the auto-reveal
    preference or at the active widget: called on a navigatable widget whose
    file the tree model reveals as a selectable node, it selects that node,
    whatever the preference says. *)
Theorem selectWidgetFileNode_selects
    (sv : Services.t) (widget : option Widget.t) (uri : URI.t)
    (n : TreeNode.t) (w : World.t) :
  Navigatable_is widget = true ->
  widget_getResourceUri widget = Some uri ->
  Services.revealFile sv uri = Some n ->
  TreeNode.selectable n = true ->
  selectWidgetFileNode sv widget w
  = (Returned tt,
     World.mk (menuRegistry w) (toDisposeBeforeNewContextMenu w) [n]
              (calls w ++ [Call_revealFile uri; Call_selectNode n])).
Proof.
  intros Hnav Huri Hn Hsel. unfold selectWidgetFileNode.
  rewrite Hnav, Huri. cbn. rewrite Hn. cbn. rewrite Hsel. cbn.
  now rewrite <- app_assoc.
Qed.

(** *** Entries of other contributions *)

Lemma In_revoke (e : MenuPath * MenuNode) (r : list (MenuPath * MenuNode))
    (d : Disposable) :
  In e r -> MenuNode_id (snd e) <> Disposable_id d -> In e (revoke r d).
Proof.
  intros Hin Hid. apply filter_In. split; [exact Hin|].
  apply negb_true_iff. now apply String.eqb_neq.
Qed.

Lemma In_fold_revoke (e : MenuPath * MenuNode) (ds : list Disposable) :
  forall r,
    In e r ->
    (forall d, In d ds -> MenuNode_id (snd e) <> Disposable_id d) ->
    In e (fold_left revoke ds r).
Proof.
  induction ds as [|d ds IH]; cbn; intros r Hin Hids; [exact Hin|].
  apply IH.
  - apply In_revoke; auto.
  - intros d' Hd'. apply Hids. now right.
Qed.

Lemma own_collection_same (w w' : World.t) :
  toDisposeBeforeNewContextMenu w' = toDisposeBeforeNewContextMenu w ->
  own_collection w -> own_collection w'.
Proof. unfold own_collection. now intros ->. Qed.

Lemma reaches_own_collection (w : World.t) (p : list Pending) :
  reaches w p -> own_collection w.
Proof.
  induction 1 as [w Hds Hr | w p arg _ IH
                 | w p1 p2 arg container currentSketch _ IH
                 | w p arg _ IH | w p1 p2 uri underlying _ IH
                 | w p sv arg _ IH | w p sv _ IH
                 | w p1 p2 uri _ IH | w p1 p2 uri node _ IH
                 | w p1 p2 q _ IH].
  - intros d. rewrite Hds. intros [].
  - rewrite context_menu_called_run.
    destruct (arg_event_target arg) as [[container|]|e]; intros d [].
  - rewrite context_menu_resumed_run.
    destruct (isCurrentSketch currentSketch arg) as [current|e]; [|exact IH].
    intros d Hd. cbn in Hd. apply in_app_or in Hd as [Hd | [<- | []]].
    + now apply IH.
    + now exists current.
  - apply (own_collection_same w); [|exact IH].
    unfold open_new_window_called, arg_node_uri.
    destruct (arg_node arg); reflexivity.
  - exact IH.
  - apply (own_collection_same w);
      [apply reveal_in_finder_keeps_menus | exact IH].
  - exact IH.
  - exact IH.
  - apply (own_collection_same w); [|exact IH].
    unfold tab_change_revealed.
    destruct node as [n|]; [|reflexivity].
    cbn. destruct (TreeNode.selectable n); reflexivity.
  - exact IH.
Qed.

(** X14.  The context-menu handler only ever takes its own entries out of
    the registry: in every state the contribution reaches, an entry whose id
    is neither the id of the "open in new window" command nor the id of the
    placeholder is still registered after an invocation, whether the
    invocation renders, aborts or throws. *)
Theorem foreign_entries_survive
    (sv : Services.t) (arg : Arg) (w : World.t) (e : MenuPath * MenuNode) :
  reachable w ->
  In e (menuRegistry w) ->
  MenuNode_id (snd e) <> Command.id OPEN_NEW_WINDOW ->
  MenuNode_id (snd e) <> MenuNode_id placeholder_entry ->
  In e (menuRegistry (snd (OPEN_SKETCHBOOK_CONTEXT_MENU_execute sv arg w))).
Proof.
  intros Hw Hin Hopen Hplaceholder.
  assert (Hd : In e (menuRegistry (disposed w))).
  { unfold disposed. cbn. apply In_fold_revoke; [exact Hin|].
    intros d Hd. apply in_rev in Hd.
    destruct Hw as [p Hw].
    destruct (reaches_own_collection w p Hw d Hd) as [[|] ->]; assumption. }
  rewrite context_menu_run. unfold context_menu_outcome.
  destruct (arg_event_target arg) as [[container|]|err]; cbn; auto.
  destruct (isCurrentSketch _ arg) as [current|err]; cbn; auto.
  apply in_or_app. now left.
Qed.

(** *** Menus of the view *)

Lemma live_registrations_reveal_entry :
  Command.id REVEAL_IN_FINDER <> Command.id OPEN_NEW_WINDOW ->
  live_registrations [reveal_entry] = [].
Proof.
  intros Hne. unfold live_registrations, reveal_entry. cbn.
  apply String.eqb_neq in Hne. now rewrite Hne.
Qed.

Lemma registerMenus_world
    (super_registerMenus : Js unit) (w w0 : World.t) :
  super_registerMenus w = (Returned tt, w0) ->
  registerMenus super_registerMenus w
  = (Returned tt,
     World.mk
       (revoke (menuRegistry w0) (Disposable_unregisterMenuNode toggleCommandId)
        ++ [reveal_entry])
       (toDisposeBeforeNewContextMenu w0)
       (selectedNodes w0)
       (calls w0
        ++ [Call_registerMenuAction
              SKETCHBOOK__CONTEXT__MAIN_GROUP
              (MenuAction.mk (Command.id REVEAL_IN_FINDER)
                             (Command.label REVEAL_IN_FINDER) (Some "0"))])).
Proof.
  intros Hsuper. unfold registerMenus. rewrite Js_bind_run, Hsuper.
  reflexivity.
Qed.

(** X15.  [registerMenus] does its own part only once
    [super.registerMenus] has returned: if that call throws, the error is
    passed on and nothing is unregistered or registered.  Otherwise
    [registerMenus] returns; it puts one entry more in the registry, the
    "reveal" action with order "0" under the main group of the context
    menu, after the entries it keeps; it keeps only entries that were there,
    and every entry whose id is not the id of the view's toggle command
    among them.  The disposal collection and the selection stay as
    [super.registerMenus] left them. *)
Theorem registerMenus_run
    (super_registerMenus : Js unit) (w w0 : World.t) :
  (forall e,
     super_registerMenus w = (Threw e, w0) ->
     registerMenus super_registerMenus w = (Threw e, w0))
  /\ (super_registerMenus w = (Returned tt, w0) ->
      let out := registerMenus super_registerMenus w in
      fst out = Returned tt
      /\ (exists kept,
            menuRegistry (snd out) = kept ++ [reveal_entry]
            /\ (forall e, In e kept -> In e (menuRegistry w0))
            /\ (forall e,
                  In e (menuRegistry w0) ->
                  MenuNode_id (snd e) <> toggleCommandId ->
                  In e kept))
      /\ toDisposeBeforeNewContextMenu (snd out)
         = toDisposeBeforeNewContextMenu w0
      /\ selectedNodes (snd out) = selectedNodes w0).
Proof.
  split.
  - intros e Hsuper. unfold registerMenus. now rewrite Js_bind_run, Hsuper.
  - intros Hsuper out. subst out.
    rewrite (registerMenus_world _ _ _ Hsuper). cbn [fst snd menuRegistry
      toDisposeBeforeNewContextMenu selectedNodes].
    split; [reflexivity|]. split; [|split; reflexivity].
    exists (revoke (menuRegistry w0)
                   (Disposable_unregisterMenuNode toggleCommandId)).
    split; [reflexivity|]. split.
    + intros e Hin. now apply filter_In in Hin.
    + intros e Hin Hid. now apply In_revoke.
Qed.

(** X16.  [registerMenus] adds no "open in new window" entry: when
    [super.registerMenus] leaves a registry without one and an empty
    disposal collection, and the reveal command is not the "open in new
    window" command, the world after [registerMenus] still has no such
    entry and an empty collection, and it holds the "reveal" entry: it is a
    state from which the contribution starts. *)
Theorem registerMenus_leaves_a_start_state
    (super_registerMenus : Js unit) (w w0 : World.t) :
  super_registerMenus w = (Returned tt, w0) ->
  Command.id REVEAL_IN_FINDER <> Command.id OPEN_NEW_WINDOW ->
  toDisposeBeforeNewContextMenu w0 = [] ->
  live_registrations (menuRegistry w0) = [] ->
  let w1 := snd (registerMenus super_registerMenus w) in
  live_registrations (menuRegistry w1) = []
  /\ toDisposeBeforeNewContextMenu w1 = []
  /\ In reveal_entry (menuRegistry w1)
  /\ reaches w1 [].
Proof.
  intros Hsuper Hne Hds Hlive w1.
  assert (Hl : live_registrations (menuRegistry w1) = []).
  { subst w1. rewrite (registerMenus_world _ _ _ Hsuper).
    cbn [snd menuRegistry].
    rewrite live_registrations_app, (live_registrations_reveal_entry Hne).
    rewrite app_nil_r. now apply live_registrations_revoke. }
  assert (Hd : toDisposeBeforeNewContextMenu w1 = []).
  { subst w1. now rewrite (registerMenus_world _ _ _ Hsuper). }
  split; [exact Hl|]. split; [exact Hd|]. split.
  - subst w1. rewrite (registerMenus_world _ _ _ Hsuper).
    cbn [snd menuRegistry]. apply in_or_app. right. now left.
  - now apply reaches_start.
Qed.

End SketchbookWidgetContribution.

(** ** The properties on the sample data *)

(** Two context menus in a row, first on the current sketch and then on
    another one: the action of the second is the only entry left. *)
Lemma one_new_window_entry_witness :
  sequential Sample.OPEN_NEW_WINDOW Sample.placeholder_id Sample.start
  /\ live_registrations Sample.OPEN_NEW_WINDOW
       (menuRegistry
          (snd (OPEN_SKETCHBOOK_CONTEXT_MENU_execute
                  Sample.OPEN_NEW_WINDOW Sample.placeholder_id
                  (Sample.services true None) (Sample.click Sample.fade)
                  (snd (OPEN_SKETCHBOOK_CONTEXT_MENU_execute
                          Sample.OPEN_NEW_WINDOW Sample.placeholder_id
                          (Sample.services true None)
                          (Sample.click Sample.blink) Sample.start)))))
     = [(SKETCHBOOK__CONTEXT__MAIN_GROUP,
         entry_variant Sample.OPEN_NEW_WINDOW false)].
Proof.
  assert (H : sequential Sample.OPEN_NEW_WINDOW Sample.placeholder_id
                         Sample.start)
    by (apply sequential_start; reflexivity).
  split; [exact H|].
  destruct (one_new_window_entry
              Sample.OPEN_NEW_WINDOW Sample.placeholder_id Sample.start
              (Sample.services true None) (Sample.services true None)
              (Sample.click Sample.blink) (Sample.click Sample.fade) H)
    as (_ & _ & Hone & _).
  destruct (Hone Sample.button false) as [Hlive _];
    [reflexivity | reflexivity | exact Hlive].
Defined.

(** Two invocations need not leave exactly one entry.  Called one after the
    other, the second without an anchor element, they leave none.  Called
    both before either is resumed (a click on Blink, a click on Fade, then
    the two answers of the sketch service), they leave two entries and two
    disposables, in a state the contribution reaches. *)
Lemma two_invocations_need_not_leave_one_entry :
  live_registrations Sample.OPEN_NEW_WINDOW
    (menuRegistry
       (snd (OPEN_SKETCHBOOK_CONTEXT_MENU_execute
               Sample.OPEN_NEW_WINDOW Sample.placeholder_id
               (Sample.services true None)
               (Sample.click_without_target Sample.blink)
               (snd (OPEN_SKETCHBOOK_CONTEXT_MENU_execute
                       Sample.OPEN_NEW_WINDOW Sample.placeholder_id
                       (Sample.services true None)
                       (Sample.click Sample.fade) Sample.start)))))
  = []
  /\ live_registrations Sample.OPEN_NEW_WINDOW
       (menuRegistry
          (snd (context_menu_resumed
            Sample.OPEN_NEW_WINDOW Sample.placeholder_id
            (Some (Sketch.mk "file:///sketchbook/Blink"))
            (Sample.click Sample.fade) Sample.button
            (snd (context_menu_resumed
                    Sample.OPEN_NEW_WINDOW Sample.placeholder_id
                    (Some (Sketch.mk "file:///sketchbook/Blink"))
                    (Sample.click Sample.blink) Sample.button
                    (snd (context_menu_called
                            Sample.placeholder_id (Sample.click Sample.fade)
                            (snd (context_menu_called
                                    Sample.placeholder_id
                                    (Sample.click Sample.blink)
                                    Sample.start)))))))))
     = [(SKETCHBOOK__CONTEXT__MAIN_GROUP,
         placeholder_entry Sample.OPEN_NEW_WINDOW);
        (SKETCHBOOK__CONTEXT__MAIN_GROUP,
         action_entry Sample.OPEN_NEW_WINDOW)]
  /\ length
       (toDisposeBeforeNewContextMenu
          (snd (context_menu_resumed
            Sample.OPEN_NEW_WINDOW Sample.placeholder_id
            (Some (Sketch.mk "file:///sketchbook/Blink"))
            (Sample.click Sample.fade) Sample.button
            (snd (context_menu_resumed
                    Sample.OPEN_NEW_WINDOW Sample.placeholder_id
                    (Some (Sketch.mk "file:///sketchbook/Blink"))
                    (Sample.click Sample.blink) Sample.button
                    (snd (context_menu_called
                            Sample.placeholder_id (Sample.click Sample.fade)
                            (snd (context_menu_called
                                    Sample.placeholder_id
                                    (Sample.click Sample.blink)
                                    Sample.start)))))))))
     = 2
  /\ reachable Sample.OPEN_NEW_WINDOW Sample.placeholder_id
       (snd (context_menu_resumed
            Sample.OPEN_NEW_WINDOW Sample.placeholder_id
            (Some (Sketch.mk "file:///sketchbook/Blink"))
            (Sample.click Sample.fade) Sample.button
            (snd (context_menu_resumed
                    Sample.OPEN_NEW_WINDOW Sample.placeholder_id
                    (Some (Sketch.mk "file:///sketchbook/Blink"))
                    (Sample.click Sample.blink) Sample.button
                    (snd (context_menu_called
                            Sample.placeholder_id (Sample.click Sample.fade)
                            (snd (context_menu_called
                                    Sample.placeholder_id
                                    (Sample.click Sample.blink)
                                    Sample.start)))))))).
Proof.
  split; [reflexivity|]. split; [reflexivity|]. split; [reflexivity|].
  exists [].
  pose proof (reaches_start
                Sample.OPEN_NEW_WINDOW Sample.placeholder_id Sample.start
                eq_refl eq_refl) as H0.
  pose proof (reaches_context_menu_called
                Sample.OPEN_NEW_WINDOW Sample.placeholder_id
                _ _ (Sample.click Sample.blink) H0) as H1.
  pose proof (reaches_context_menu_called
                Sample.OPEN_NEW_WINDOW Sample.placeholder_id
                _ _ (Sample.click Sample.fade) H1) as H2.
  pose proof (reaches_context_menu_resumed
                Sample.OPEN_NEW_WINDOW Sample.placeholder_id
                _ [] [Pending_currentSketch
                        (Sample.click Sample.fade) Sample.button]
                (Sample.click Sample.blink) Sample.button
                (Some (Sketch.mk "file:///sketchbook/Blink")) H2) as H3.
  exact (reaches_context_menu_resumed
           Sample.OPEN_NEW_WINDOW Sample.placeholder_id
           _ [] [] (Sample.click Sample.fade) Sample.button
           (Some (Sketch.mk "file:///sketchbook/Blink")) H3).
Qed.

(** A click on the current sketch registers the placeholder. *)
Lemma context_menu_entry_variant_witness :
  arg_event_target (Sample.click Sample.blink)
  = Returned (Some Sample.button)
  /\ arg_node (Sample.click Sample.blink) = Some Sample.blink
  /\ menuRegistry
       (snd (OPEN_SKETCHBOOK_CONTEXT_MENU_execute
               Sample.OPEN_NEW_WINDOW Sample.placeholder_id
               (Sample.services true None) (Sample.click Sample.blink)
               Sample.start))
     = menuRegistry (disposed Sample.placeholder_id Sample.start)
       ++ [(SKETCHBOOK__CONTEXT__MAIN_GROUP,
            PlaceholderMenuNode SKETCHBOOK__CONTEXT__MAIN_GROUP
                                (Command.label Sample.OPEN_NEW_WINDOW))].
Proof.
  split; [reflexivity|]. split; [reflexivity|].
  apply (context_menu_entry_variant
           Sample.OPEN_NEW_WINDOW Sample.placeholder_id
           (Sample.services true None) (Sample.click Sample.blink)
           Sample.button Sample.blink Sample.start);
    [reflexivity | reflexivity |].
  exists (Sketch.mk "file:///sketchbook/Blink"). split; reflexivity.
Defined.

(** A tab change to an editor on Blink selects the Blink node. *)
Lemma tab_change_reveals_and_selects_witness :
  Services.autoReveal
    (Sample.services true (Some (Sample.editor "file:///sketchbook/Blink")))
  = true
  /\ selectedNodes
       (snd (onCurrentWidgetChangedHandler
               (Sample.services
                  true (Some (Sample.editor "file:///sketchbook/Blink")))
               Sample.start))
     = [Sample.blink].
Proof.
  split; [reflexivity|].
  destruct (tab_change_reveals_and_selects
              (Sample.services
                 true (Some (Sample.editor "file:///sketchbook/Blink")))
              Sample.start (URI.parse "file:///sketchbook/Blink"))
    as (_ & _ & Hsel & _); [reflexivity | reflexivity | reflexivity |].
  destruct (Hsel Sample.blink) as [Hone _];
    [reflexivity | reflexivity | exact Hone].
Defined.

(** Both commands are enabled and visible for a click on a sketch
    directory, and neither is for [undefined], for a truthy primitive or for
    a click on a plain file. *)
Lemma open_and_reveal_share_guard_witness :
  (commandEnabled (OPEN_NEW_WINDOW_handler (Sample.services true None))
                  (Sample.click Sample.fade) = true
   /\ commandVisible (REVEAL_IN_FINDER_handler (Sample.services true None))
                     (Sample.click Sample.fade) = true)
  /\ commandEnabled (OPEN_NEW_WINDOW_handler (Sample.services true None))
                    Falsy = false
  /\ commandEnabled (REVEAL_IN_FINDER_handler (Sample.services true None))
                    Primitive = false
  /\ commandVisible (OPEN_NEW_WINDOW_handler (Sample.services true None))
                    (Sample.click Sample.readme) = false.
Proof.
  split; [|split; [|split]].
  - destruct (open_and_reveal_share_guard
                Sample.OPEN_NEW_WINDOW Sample.REVEAL_IN_FINDER
                Sample.OPEN_SKETCHBOOK_CONTEXT_MENU Sample.placeholder_id
                (Sample.services true None) (Sample.click Sample.fade))
      as (_ & _ & He & _ & _ & Hv & _).
    split; [apply He | apply Hv]; repeat split; reflexivity.
  - apply (open_and_reveal_share_guard
             Sample.OPEN_NEW_WINDOW Sample.REVEAL_IN_FINDER
             Sample.OPEN_SKETCHBOOK_CONTEXT_MENU Sample.placeholder_id
             (Sample.services true None) Falsy).
    left. reflexivity.
  - apply (open_and_reveal_share_guard
             Sample.OPEN_NEW_WINDOW Sample.REVEAL_IN_FINDER
             Sample.OPEN_SKETCHBOOK_CONTEXT_MENU Sample.placeholder_id
             (Sample.services true None) Primitive).
    left. reflexivity.
  - apply (open_and_reveal_share_guard
             Sample.OPEN_NEW_WINDOW Sample.REVEAL_IN_FINDER
             Sample.OPEN_SKETCHBOOK_CONTEXT_MENU Sample.placeholder_id
             (Sample.services true None) (Sample.click Sample.readme)).
    right. reflexivity.
Defined.

(** A truthy argument that is not an object has no node; the predicate as
    written throws on it at the [in] test, which the command registry
    catches. *)
Remark guard_throws_on_truthy_primitive :
  truthy Primitive = true
  /\ carries_node Primitive = false
  /\ OPEN_NEW_WINDOW_isEnabled Primitive = Threw TypeError
  /\ REVEAL_IN_FINDER_isEnabled Primitive = Threw TypeError
  /\ OPEN_NEW_WINDOW_isEnabled Primitive <> Returned false
  /\ REVEAL_IN_FINDER_isEnabled Primitive <> Returned false.
Proof.
  repeat split; try reflexivity; discriminate.
Qed.

(** A click without a target after a context menu on Fade: the handler
    returns, no menu is rendered, and the action of the first menu is gone
    from the registry. *)
Lemma context_menu_without_anchor_witness :
  arg_event_target (Sample.click_without_target Sample.blink) = Returned None
  /\ menuRegistry
       (snd (OPEN_SKETCHBOOK_CONTEXT_MENU_execute
               Sample.OPEN_NEW_WINDOW Sample.placeholder_id
               (Sample.services true None)
               (Sample.click_without_target Sample.blink)
               (snd (OPEN_SKETCHBOOK_CONTEXT_MENU_execute
                       Sample.OPEN_NEW_WINDOW Sample.placeholder_id
                       (Sample.services true None)
                       (Sample.click Sample.fade) Sample.start))))
     = menuRegistry Sample.start.
Proof.
  split; [reflexivity|].
  destruct (context_menu_without_anchor
              Sample.OPEN_NEW_WINDOW Sample.placeholder_id
              (Sample.services true None)
              (Sample.click_without_target Sample.blink)
              (snd (OPEN_SKETCHBOOK_CONTEXT_MENU_execute
                      Sample.OPEN_NEW_WINDOW Sample.placeholder_id
                      (Sample.services true None)
                      (Sample.click Sample.fade) Sample.start)))
    as (_ & Hregistry & _); [reflexivity|].
  rewrite Hregistry. reflexivity.
Defined.

(** The same run refutes "all observable state is left unchanged": before
    the click without a target the registry holds the "open in new window"
    action, after it the registry does not. *)
Lemma anchorless_click_changes_the_registry :
  arg_event_target (Sample.click_without_target Sample.blink) = Returned None
  /\ menuRegistry
       (snd (OPEN_SKETCHBOOK_CONTEXT_MENU_execute
               Sample.OPEN_NEW_WINDOW Sample.placeholder_id
               (Sample.services true None)
               (Sample.click Sample.fade) Sample.start))
     = menuRegistry Sample.start
       ++ [(SKETCHBOOK__CONTEXT__MAIN_GROUP,
            action_entry Sample.OPEN_NEW_WINDOW)]
  /\ snd (OPEN_SKETCHBOOK_CONTEXT_MENU_execute
            Sample.OPEN_NEW_WINDOW Sample.placeholder_id
            (Sample.services true None)
            (Sample.click_without_target Sample.blink)
            (snd (OPEN_SKETCHBOOK_CONTEXT_MENU_execute
                    Sample.OPEN_NEW_WINDOW Sample.placeholder_id
                    (Sample.services true None)
                    (Sample.click Sample.fade) Sample.start)))
     <> snd (OPEN_SKETCHBOOK_CONTEXT_MENU_execute
               Sample.OPEN_NEW_WINDOW Sample.placeholder_id
               (Sample.services true None)
               (Sample.click Sample.fade) Sample.start).
Proof.
  split; [reflexivity|]. split; [reflexivity|].
  intros H. apply (f_equal (fun w => length (menuRegistry w))) in H.
  vm_compute in H. discriminate H.
Qed.

(** With auto-reveal off, a tab change to an editor on Blink leaves a world
    in which Fade is selected as it is. *)
Lemma tab_change_frame_witness :
  Services.autoReveal
    (Sample.services false (Some (Sample.editor "file:///sketchbook/Blink")))
  = false
  /\ onCurrentWidgetChangedHandler
       (Sample.services
          false (Some (Sample.editor "file:///sketchbook/Blink")))
       (World.mk (menuRegistry Sample.start) [] [Sample.fade] [])
     = (Returned tt, World.mk (menuRegistry Sample.start) [] [Sample.fade] []).
Proof.
  split; [reflexivity|].
  apply (tab_change_frame
           (Sample.services
              false (Some (Sample.editor "file:///sketchbook/Blink")))
           (World.mk (menuRegistry Sample.start) [] [Sample.fade] [])).
  left. reflexivity.
Defined.

(** "Open in new window" on Fade resolves Fade's URI and opens the answer. *)
Lemma open_new_window_resolves_then_opens_witness :
  arg_node (Sample.click Sample.fade) = Some Sample.fade
  /\ calls
       (snd (OPEN_NEW_WINDOW_execute
               (Sample.services true None) (Sample.click Sample.fade)
               Sample.start))
     = [Call_toUnderlyingResource (URI.parse "file:///sketchbook/Fade");
        Call_workspace_open (URI.parse "resolved:file:///sketchbook/Fade")].
Proof.
  split; [reflexivity|].
  rewrite (open_new_window_resolves_then_opens
             (Sample.services true None) (Sample.click Sample.fade)
             Sample.fade Sample.start);
    reflexivity.
Defined.

(** "Reveal in file system" on Fade opens the path held by the node's id. *)
Lemma reveal_in_finder_opens_node_id_witness :
  arg_node (Sample.click Sample.fade) = Some Sample.fade
  /\ REVEAL_IN_FINDER_execute
       (Sample.services true None) (Sample.click Sample.fade) Sample.start
     = (Returned tt,
        World.mk (menuRegistry Sample.start) [] []
                 [Call_openPath "/sketchbook/Fade"]).
Proof.
  split; [reflexivity|].
  apply (reveal_in_finder_opens_node_id
           (Sample.services true None) (Sample.click Sample.fade)
           Sample.fade Sample.start).
  reflexivity.
Defined.

(** A context menu on Fade after one on Blink: the placeholder is
    unregistered, the action registered, the menu rendered at
    (12.5, 62.25). *)
Lemma context_menu_order_witness :
  arg_event_target (Sample.click Sample.fade) = Returned (Some Sample.button)
  /\ isCurrentSketch
       (Services.currentSketch (Sample.services true None))
       (Sample.click Sample.fade)
     = Returned false
  /\ calls
       (snd (OPEN_SKETCHBOOK_CONTEXT_MENU_execute
               Sample.OPEN_NEW_WINDOW Sample.placeholder_id
               (Sample.services true None) (Sample.click Sample.fade)
               (World.mk
                  (menuRegistry Sample.start
                   ++ [(SKETCHBOOK__CONTEXT__MAIN_GROUP,
                        placeholder_entry Sample.OPEN_NEW_WINDOW)])
                  [entry_disposable
                     Sample.OPEN_NEW_WINDOW Sample.placeholder_id true]
                  [] [])))
     = [Call_unregisterMenuNode
          "arduino-sketchbook--context-0_main-placeholder";
        Call_currentSketch;
        Call_registerMenuAction
          SKETCHBOOK__CONTEXT__MAIN_GROUP
          (MenuAction.mk "open-new-window" (Some "Open in New Window") None);
        Call_render
          (RenderContextMenuOptions.mk
             SKETCHBOOK__CONTEXT (Anchor.mk 12.5%float 62.25%float)
             (Sample.click Sample.fade))].
Proof.
  split; [reflexivity|]. split; [reflexivity|].
  destruct (context_menu_order
              Sample.OPEN_NEW_WINDOW Sample.placeholder_id
              (Sample.services true None) (Sample.click Sample.fade)
              Sample.button false
              (World.mk
                 (menuRegistry Sample.start
                  ++ [(SKETCHBOOK__CONTEXT__MAIN_GROUP,
                       placeholder_entry Sample.OPEN_NEW_WINDOW)])
                 [entry_disposable
                    Sample.OPEN_NEW_WINDOW Sample.placeholder_id true]
                 [] []))
    as (_ & Hcalls & _); [reflexivity | reflexivity |].
  rewrite Hcalls. reflexivity.
Defined.

(** Run through the command registry, the context-menu handler runs on a
    click on Fade, a sketch directory, and registers its entry; on a click
    on a plain file the call is rejected and the world is as it was. *)
Lemma context_menu_guarded_witness :
  menuRegistry
    (snd (executeCommand
            (OPEN_SKETCHBOOK_CONTEXT_MENU_handler
               Sample.OPEN_NEW_WINDOW Sample.placeholder_id
               (Sample.services true None))
            (Sample.click Sample.fade) Sample.start))
  = menuRegistry Sample.start
    ++ [(SKETCHBOOK__CONTEXT__MAIN_GROUP, action_entry Sample.OPEN_NEW_WINDOW)]
  /\ executeCommand
       (OPEN_SKETCHBOOK_CONTEXT_MENU_handler
          Sample.OPEN_NEW_WINDOW Sample.placeholder_id
          (Sample.services true None))
       (Sample.click Sample.readme) Sample.start
     = (Threw NoActiveHandler, Sample.start).
Proof.
  split.
  - destruct (context_menu_guarded
                Sample.OPEN_NEW_WINDOW Sample.REVEAL_IN_FINDER
                Sample.OPEN_SKETCHBOOK_CONTEXT_MENU Sample.placeholder_id
                (Sample.services true None) (Sample.click Sample.fade))
      as (_ & _ & _ & _ & Hrun & _).
    rewrite Hrun; [reflexivity | repeat split; reflexivity].
  - apply (context_menu_guarded
             Sample.OPEN_NEW_WINDOW Sample.REVEAL_IN_FINDER
             Sample.OPEN_SKETCHBOOK_CONTEXT_MENU Sample.placeholder_id
             (Sample.services true None) (Sample.click Sample.readme)).
    intros (_ & _ & H). discriminate H.
Defined.

(** ** Errors, edges and menus on the sample data *)

Lemma open_new_window_without_node_witness :
  arg_node Sample.click_without_node = None
  /\ OPEN_NEW_WINDOW_execute
       (Sample.services true None) Sample.click_without_node Sample.start
     = (Threw TypeError, Sample.start).
Proof.
  split; [reflexivity|].
  apply (open_new_window_without_node
           (Sample.services true None) Sample.click_without_node Sample.start).
  reflexivity.
Defined.

Lemma reveal_in_finder_without_node_witness :
  arg_node Falsy = None
  /\ REVEAL_IN_FINDER_execute (Sample.services true None) Falsy Sample.start
     = (Threw TypeError, Sample.start).
Proof.
  split; [reflexivity|].
  apply (reveal_in_finder_without_node
           (Sample.services true None) Falsy Sample.start).
  reflexivity.
Defined.

Lemma guard_protects_open_and_reveal_witness :
  OPEN_NEW_WINDOW_isEnabled (Sample.node_only Sample.fade) = Returned true
  /\ fst (OPEN_NEW_WINDOW_execute
            (Sample.services true None) (Sample.node_only Sample.fade)
            Sample.start)
     = Returned tt.
Proof.
  split; [reflexivity|].
  apply (guard_protects_open_and_reveal
           (Sample.services true None) (Sample.node_only Sample.fade)
           Sample.start);
    reflexivity.
Defined.

(** The argument passes the guard of the context-menu command and the
    handler throws on it. *)
Lemma context_menu_without_event_witness :
  OPEN_SKETCHBOOK_CONTEXT_MENU_isEnabled (Sample.node_only Sample.fade)
  = Returned true
  /\ arg_event_target (Sample.node_only Sample.fade) = Threw TypeError
  /\ fst (OPEN_SKETCHBOOK_CONTEXT_MENU_execute
            Sample.OPEN_NEW_WINDOW Sample.placeholder_id
            (Sample.services true None) (Sample.node_only Sample.fade)
            Sample.start)
     = Threw TypeError.
Proof.
  split; [reflexivity|]. split; [reflexivity|].
  destruct (context_menu_without_event
              Sample.OPEN_NEW_WINDOW Sample.placeholder_id
              (Sample.services true None) (Sample.node_only Sample.fade)
              TypeError Sample.start)
    as [_ Hrun]; [reflexivity|].
  rewrite Hrun. reflexivity.
Defined.

Lemma context_menu_current_sketch_without_node_witness :
  arg_event_target Sample.click_without_node = Returned (Some Sample.button)
  /\ arg_node Sample.click_without_node = None
  /\ OPEN_SKETCHBOOK_CONTEXT_MENU_execute
       Sample.OPEN_NEW_WINDOW Sample.placeholder_id
       (Sample.services true None) Sample.click_without_node Sample.start
     = (Threw TypeError,
        World.mk (menuRegistry Sample.start) [] [] [Call_currentSketch]).
Proof.
  split; [reflexivity|]. split; [reflexivity|].
  rewrite (context_menu_current_sketch_without_node
             Sample.OPEN_NEW_WINDOW Sample.placeholder_id
             (Sample.services true None) Sample.click_without_node
             Sample.button (Sketch.mk "file:///sketchbook/Blink")
             Sample.start);
    reflexivity.
Defined.

Lemma context_menu_without_current_sketch_witness :
  arg_event_target Sample.click_without_node = Returned (Some Sample.button)
  /\ Services.currentSketch Sample.services_without_sketch = None
  /\ menuRegistry
       (snd (OPEN_SKETCHBOOK_CONTEXT_MENU_execute
               Sample.OPEN_NEW_WINDOW Sample.placeholder_id
               Sample.services_without_sketch Sample.click_without_node
               Sample.start))
     = menuRegistry Sample.start
       ++ [(SKETCHBOOK__CONTEXT__MAIN_GROUP,
            action_entry Sample.OPEN_NEW_WINDOW)].
Proof.
  split; [reflexivity|]. split; [reflexivity|].
  destruct (context_menu_without_current_sketch
              Sample.OPEN_NEW_WINDOW Sample.placeholder_id
              Sample.services_without_sketch Sample.click_without_node
              Sample.button Sample.start)
    as (_ & Hregistry & _); [reflexivity | reflexivity |].
  rewrite Hregistry. reflexivity.
Defined.

Lemma tab_change_selects_selectable_only_witness :
  (forall n, In n (selectedNodes Sample.start) -> TreeNode.selectable n = true)
  /\ forall n,
       In n (selectedNodes
               (snd (onCurrentWidgetChangedHandler
                       (Sample.services
                          true
                          (Some (Sample.editor "file:///sketchbook/Blink")))
                       Sample.start))) ->
       TreeNode.selectable n = true.
Proof.
  assert (H : forall n, In n (selectedNodes Sample.start) ->
                        TreeNode.selectable n = true)
    by (intros n []).
  split; [exact H|].
  apply (tab_change_selects_selectable_only
           (Sample.services
              true (Some (Sample.editor "file:///sketchbook/Blink")))
           Sample.start H).
Defined.

(** The menu of Blink, the current sketch, shows the placeholder, and the
    command on the same click opens Blink in a new window. *)
Lemma current_sketch_is_disabled_in_the_menu_only_witness :
  arg_event_target (Sample.click Sample.blink) = Returned (Some Sample.button)
  /\ TreeNode.isSketchDir Sample.blink = true
  /\ fst (executeCommand
            (OPEN_NEW_WINDOW_handler (Sample.services true None))
            (Sample.click Sample.blink)
            (snd (OPEN_SKETCHBOOK_CONTEXT_MENU_execute
                    Sample.OPEN_NEW_WINDOW Sample.placeholder_id
                    (Sample.services true None) (Sample.click Sample.blink)
                    Sample.start)))
     = Returned tt.
Proof.
  split; [reflexivity|]. split; [reflexivity|].
  destruct (current_sketch_is_disabled_in_the_menu_only
              Sample.OPEN_NEW_WINDOW Sample.placeholder_id
              (Sample.services true None) (Sample.click Sample.blink)
              Sample.button Sample.blink (Sketch.mk "file:///sketchbook/Blink")
              Sample.start)
    as (_ & _ & Hrun);
    [reflexivity | reflexivity | reflexivity | reflexivity | reflexivity |].
  rewrite Hrun. reflexivity.
Defined.

(** With auto-reveal off, [selectWidgetFileNode] called on an editor on
    Blink selects Blink. *)
Lemma selectWidgetFileNode_selects_witness :
  Services.autoReveal (Sample.services false None) = false
  /\ selectedNodes
       (snd (selectWidgetFileNode
               (Sample.services false None)
               (Some (Sample.editor "file:///sketchbook/Blink"))
               Sample.start))
     = [Sample.blink].
Proof.
  split; [reflexivity|].
  rewrite (selectWidgetFileNode_selects
             (Sample.services false None)
             (Some (Sample.editor "file:///sketchbook/Blink"))
             (URI.parse "file:///sketchbook/Blink") Sample.blink Sample.start);
    reflexivity.
Defined.

(** After a context menu on Blink, which leaves the placeholder and its
    disposable, a context menu on Fade takes the placeholder out and the
    "reveal" action is still there. *)
Lemma foreign_entries_survive_witness :
  reachable Sample.OPEN_NEW_WINDOW Sample.placeholder_id
    (snd (OPEN_SKETCHBOOK_CONTEXT_MENU_execute
            Sample.OPEN_NEW_WINDOW Sample.placeholder_id
            (Sample.services true None) (Sample.click Sample.blink)
            Sample.start))
  /\ toDisposeBeforeNewContextMenu
       (snd (OPEN_SKETCHBOOK_CONTEXT_MENU_execute
               Sample.OPEN_NEW_WINDOW Sample.placeholder_id
               (Sample.services true None) (Sample.click Sample.blink)
               Sample.start))
     = [entry_disposable Sample.OPEN_NEW_WINDOW Sample.placeholder_id true]
  /\ In (reveal_entry Sample.REVEAL_IN_FINDER)
        (menuRegistry
           (snd (OPEN_SKETCHBOOK_CONTEXT_MENU_execute
                   Sample.OPEN_NEW_WINDOW Sample.placeholder_id
                   (Sample.services true None) (Sample.click Sample.fade)
                   (snd (OPEN_SKETCHBOOK_CONTEXT_MENU_execute
                           Sample.OPEN_NEW_WINDOW Sample.placeholder_id
                           (Sample.services true None)
                           (Sample.click Sample.blink) Sample.start))))).
Proof.
  assert (H : reachable Sample.OPEN_NEW_WINDOW Sample.placeholder_id
                (snd (OPEN_SKETCHBOOK_CONTEXT_MENU_execute
                        Sample.OPEN_NEW_WINDOW Sample.placeholder_id
                        (Sample.services true None)
                        (Sample.click Sample.blink) Sample.start))).
  { exists []. apply sequential_reaches. apply sequential_context_menu.
    apply sequential_start; reflexivity. }
  split; [exact H|]. split; [reflexivity|].
  apply (foreign_entries_survive
           Sample.OPEN_NEW_WINDOW Sample.placeholder_id
           (Sample.services true None) (Sample.click Sample.fade)
           _ (reveal_entry Sample.REVEAL_IN_FINDER) H).
  - left. reflexivity.
  - discriminate.
  - discriminate.
Defined.

(** After a [super.registerMenus] that puts the toggle entry in the View
    menu, the registry ends with the "reveal" entry. *)
Lemma registerMenus_run_witness :
  Sample.super_registerMenus Sample.empty
  = (Returned tt, World.mk [Sample.toggle_entry] [] [] [])
  /\ exists kept,
       menuRegistry
         (snd (registerMenus Sample.REVEAL_IN_FINDER Sample.placeholder_id
                             Sample.super_registerMenus Sample.empty))
       = kept ++ [reveal_entry Sample.REVEAL_IN_FINDER].
Proof.
  split; [reflexivity|].
  destruct (registerMenus_run
              Sample.REVEAL_IN_FINDER Sample.placeholder_id
              Sample.super_registerMenus Sample.empty
              (World.mk [Sample.toggle_entry] [] [] []))
    as [_ Hrun].
  destruct (Hrun eq_refl) as (_ & (kept & Hregistry & _) & _).
  exists kept. exact Hregistry.
Defined.

Lemma registerMenus_leaves_a_start_state_witness :
  Sample.super_registerMenus Sample.empty
  = (Returned tt, World.mk [Sample.toggle_entry] [] [] [])
  /\ reaches Sample.OPEN_NEW_WINDOW Sample.placeholder_id
       (snd (registerMenus Sample.REVEAL_IN_FINDER Sample.placeholder_id
                           Sample.super_registerMenus Sample.empty))
       [].
Proof.
  split; [reflexivity|].
  apply (registerMenus_leaves_a_start_state
           Sample.OPEN_NEW_WINDOW Sample.REVEAL_IN_FINDER
           Sample.placeholder_id
           Sample.super_registerMenus Sample.empty
           (World.mk [Sample.toggle_entry] [] [] []));
    [reflexivity | discriminate | reflexivity | reflexivity].
Defined.

(** The anchor's [y] is the float sum: for an element whose top edge is at
    2^53, one more pixel of height is rounded away. *)
Remark anchor_y_is_the_float_sum :
  number_add 9007199254740992%float 1%float = 9007199254740992%float
  /\ number_add 40.25%float 22%float = 62.25%float.
Proof. split; reflexivity. Qed.

(** A context menu on Fade resumed while the placeholder of an earlier menu
    on Blink is still collected: the collection then holds two
    disposables. *)
Lemma collection_after_context_menu_witness :
  length
    (toDisposeBeforeNewContextMenu
       (snd (context_menu_resumed
               Sample.OPEN_NEW_WINDOW Sample.placeholder_id
               (Services.currentSketch (Sample.services true None))
               (Sample.click Sample.fade) Sample.button
               (snd (OPEN_SKETCHBOOK_CONTEXT_MENU_execute
                       Sample.OPEN_NEW_WINDOW Sample.placeholder_id
                       (Sample.services true None)
                       (Sample.click Sample.blink) Sample.start)))))
  = 2.
Proof.
  destruct (collection_after_context_menu
              Sample.OPEN_NEW_WINDOW Sample.placeholder_id
              (Sample.services true None) (Sample.click Sample.fade)
              Sample.button
              (snd (OPEN_SKETCHBOOK_CONTEXT_MENU_execute
                      Sample.OPEN_NEW_WINDOW Sample.placeholder_id
                      (Sample.services true None)
                      (Sample.click Sample.blink) Sample.start)))
    as (_ & [[e He] | [_ (current & Hcollection & _)]] & _).
  - vm_compute in He. discriminate He.
  - rewrite Hcollection. reflexivity.
Defined.
